(** * slack-influencer-bot: the URL pipeline of [src/bot.py]

    A shallow embedding of the bot's functions [validate_url],
    [check_duplicate_url], [get_user_name], [add_to_sheet],
    [setup_sheet_headers] and [handle_mention], and the properties of
    the specification that are about them.

    Conventions.
    - A Python [str] is a [string]: the sequence of its bytes.  [str.lower]
      and the regular expression class [\s] are modelled on the ASCII range.
    - A Python value that is either [None] or a [str] is an [option string].
    - The remote collaborators (spreadsheet backend, Slack) live in a
      [World]; a program is a function from worlds to a result and a world,
      and a result is either a value or a raised exception. *)

From Stdlib Require Import String Ascii List Bool Arith ZArith Lia.
From Stdlib Require Import Sorting.Permutation.
From Stdlib Require Import Numbers.DecimalString.
Import ListNotations.
Local Open Scope list_scope.
Local Open Scope string_scope.

(** ** Python strings *)

Module PyStr.

(** [s.startswith(p)] *)
Fixpoint startswith (s p : string) {struct p} : bool :=
  match p, s with
  | EmptyString, _ => true
  | String _ _, EmptyString => false
  | String a p', String b s' => Ascii.eqb a b && startswith s' p'
  end.

(** [s.startswith((p1, p2, ...))] *)
Definition startswith_any (s : string) (ps : list string) : bool :=
  existsb (startswith s) ps.

(** [needle in hay] *)
Fixpoint str_in (needle hay : string) : bool :=
  startswith hay needle ||
  match hay with
  | EmptyString => false
  | String _ hay' => str_in needle hay'
  end.

(** [c in s] for a single character *)
Fixpoint mem_char (c : ascii) (s : string) : bool :=
  match s with
  | EmptyString => false
  | String a s' => Ascii.eqb a c || mem_char c s'
  end.

Definition is_upper (c : ascii) : bool :=
  let n := nat_of_ascii c in ((65 <=? n) && (n <=? 90))%nat.

Definition lower_char (c : ascii) : ascii :=
  if is_upper c then ascii_of_nat (nat_of_ascii c + 32) else c.

(** [s.lower()] *)
Fixpoint lower (s : string) : string :=
  match s with
  | EmptyString => EmptyString
  | String c s' => String (lower_char c) (lower s')
  end.

(** [s.lstrip(chars)] *)
Fixpoint lstrip (chars s : string) : string :=
  match s with
  | EmptyString => EmptyString
  | String c s' => if mem_char c chars then lstrip chars s' else s
  end.

(** [s.rstrip(chars)] *)
Fixpoint rstrip (chars s : string) : string :=
  match s with
  | EmptyString => EmptyString
  | String c s' =>
      match rstrip chars s' with
      | EmptyString => if mem_char c chars then EmptyString else String c EmptyString
      | r => String c r
      end
  end.

(** [s.strip(chars)] *)
Definition strip (chars s : string) : string := rstrip chars (lstrip chars s).

(** [sep.join(parts)] *)
Definition join (sep : string) (parts : list string) : string :=
  String.concat sep parts.

(** [str(n)] for a non-negative integer *)
Definition of_nat (n : nat) : string :=
  NilEmpty.string_of_uint (Nat.to_uint n).

(** [str(v)] for [v] that is [None] or a [str], as an f-string prints it *)
Definition of_opt (v : option string) : string :=
  match v with
  | Some s => s
  | None => "None"
  end.

(** Truth value of a value that is [None] or a [str] *)
Definition truthy (v : option string) : bool :=
  match v with
  | Some (String _ _) => true
  | _ => false
  end.

(** [a or b] *)
Definition por (a b : option string) : option string :=
  if truthy a then a else b.

Definition nl : string := String (ascii_of_nat 10) EmptyString.

End PyStr.

Import PyStr.

(** ** Results and exceptions *)

Inductive exc (A : Type) : Type :=
  | Ok (a : A)
  | Raise (e : string).
Arguments Ok {A} a.
Arguments Raise {A} e.

(** ** The URL validator *)

(** What [validate_url] reads of [urlparse]'s result. *)
Record ParseResult := mkParse { netloc : string; path : string }.

(** [SUPPORTED_PLATFORMS], in the order the dict literal lists its keys
    (the order in which [.items()] yields them). *)
Definition SUPPORTED_PLATFORMS : list (string * string) :=
  [ ("instagram.com", "Instagram");
    ("tiktok.com", "TikTok");
    ("youtube.com", "YouTube");
    ("youtu.be", "YouTube") ].

(** The loop of [validate_url] over the platform table: [None] when no
    entry occurs in [domain], else the name of the first one that does. *)
Fixpoint classify (tbl : list (string * string)) (domain : string)
  : option string :=
  match tbl with
  | [] => None
  | (supported_domain, platform_name) :: rest =>
      if str_in supported_domain domain then Some platform_name
      else classify rest domain
  end.

(** All the table entries that occur in [host] name one platform. *)
Definition one_platform (tbl : list (string * string)) (host : string) : Prop :=
  forall d1 p1 d2 p2,
    In (d1, p1) tbl -> In (d2, p2) tbl ->
    str_in d1 host = true -> str_in d2 host = true -> p1 = p2.

(** The first statement of [validate_url]: add https if missing. *)
Definition add_scheme (url : string) : string :=
  if negb (startswith_any url ["http://"; "https://"])
  then "https://" ++ url
  else url.

Definition msg_unsupported : string :=
  "Unsupported platform. Please use Instagram, TikTok, or YouTube URLs.".

Definition msg_invalid_path (platform : string) : string :=
  "Invalid " ++ platform ++ " URL. Please provide a profile/channel URL.".

Definition msg_invalid_format (e : string) : string :=
  "Invalid URL format: " ++ e.

(** *** A model of [urllib.parse.urlparse]

    [urlparse] belongs to the Python standard library.  The validator is
    parametric in it (section [Validator]); the model below follows
    CPython's [urlsplit]/[urlparse] for the two fields the bot reads, and
    is what the concrete runs use.  The check of a bracketed host as an IP
    literal and the NFKC check of a non-ASCII netloc are left out. *)

Module UrlParse.

Definition scheme_chars : string :=
  "abcdefghijklmnopqrstuvwxyzABCDEFGHIJKLMNOPQRSTUVWXYZ0123456789+-.".

Definition is_alpha (c : ascii) : bool :=
  let n := nat_of_ascii c in
  (((65 <=? n) && (n <=? 90)) || ((97 <=? n) && (n <=? 122)))%nat.

Definition is_c0_or_space (c : ascii) : bool :=
  (nat_of_ascii c <=? 32)%nat.

(** [url.lstrip(_WHATWG_C0_CONTROL_OR_SPACE)] *)
Fixpoint lstrip_c0 (s : string) : string :=
  match s with
  | EmptyString => EmptyString
  | String c s' => if is_c0_or_space c then lstrip_c0 s' else s
  end.

(** Removal of the characters of [_UNSAFE_URL_BYTES_TO_REMOVE]. *)
Fixpoint remove_unsafe (s : string) : string :=
  match s with
  | EmptyString => EmptyString
  | String c s' =>
      let n := nat_of_ascii c in
      if ((n =? 9) || (n =? 10) || (n =? 13))%nat then remove_unsafe s'
      else String c (remove_unsafe s')
  end.

(** [s.partition(c)]: the text before the first [c], and the text after
    it when [c] occurs. *)
Fixpoint partition (c : ascii) (s : string) : string * option string :=
  match s with
  | EmptyString => (EmptyString, None)
  | String a s' =>
      if Ascii.eqb a c then (EmptyString, Some s')
      else let (before, after) := partition c s' in (String a before, after)
  end.

Fixpoint all_in (chars s : string) : bool :=
  match s with
  | EmptyString => true
  | String a s' => mem_char a chars && all_in chars s'
  end.

(** The scheme of [urlsplit]: the lowercased scheme and the rest. *)
Definition split_scheme (url : string) : string * string :=
  match url, partition ":" url with
  | String c0 _, (String _ _ as before, Some after) =>
      if is_alpha c0 && all_in scheme_chars before
      then (lower before, after)
      else (EmptyString, url)
  | _, _ => (EmptyString, url)
  end.

(** [_splitnetloc(url, 2)], on the text after the two slashes. *)
Fixpoint splitnetloc (s : string) : string * string :=
  match s with
  | EmptyString => (EmptyString, EmptyString)
  | String c s' =>
      if mem_char c "/?#" then (EmptyString, s)
      else let (n, rest) := splitnetloc s' in (String c n, rest)
  end.

(** [_splitparams(url)[0]]: the path up to the first semicolon that
    follows its last slash. *)
Fixpoint strip_params (p : string) : string :=
  match p with
  | EmptyString => EmptyString
  | String c p' =>
      if mem_char "/" p then String c (strip_params p')
      else fst (partition ";" p)
  end.

Definition uses_params : list string :=
  [""; "ftp"; "hdl"; "prospero"; "http"; "imap"; "https"; "shttp"; "rtsp";
   "rtsps"; "rtspu"; "sip"; "sips"; "mms"; "sftp"; "tel"].

Definition urlparse (url0 : string) : exc ParseResult :=
  let url := remove_unsafe (lstrip_c0 url0) in
  let (scheme, url) := split_scheme url in
  let (netloc, url) :=
    match url with
    | String "/" (String "/" rest) => splitnetloc rest
    | _ => (EmptyString, url)
    end in
  if xorb (mem_char "[" netloc) (mem_char "]" netloc)
  then Raise "Invalid IPv6 URL"
  else
    let url := fst (partition "#" url) in
    let url := fst (partition "?" url) in
    let url :=
      if existsb (String.eqb scheme) uses_params && mem_char ";" url
      then strip_params url else url in
    Ok (mkParse netloc url).

End UrlParse.

Section Validator.

(** [urllib.parse.urlparse], of the Python standard library: it returns
    the parts of the URL or raises [ValueError]. *)
Variable urlparse : string -> exc ParseResult.

(** [validate_url], after the scheme has been added. *)
Definition validate_parsed (url : string) : option string * string :=
  match urlparse url with
  | Raise e => (None, msg_invalid_format e)
  | Ok parsed =>
      let domain := lower (netloc parsed) in
      let platform := classify SUPPORTED_PLATFORMS domain in
      if negb (truthy platform) then (None, msg_unsupported)
      else if negb (truthy (Some (path parsed))) || String.eqb (path parsed) "/"
      then (None, msg_invalid_path (of_opt platform))
      else (Some url, of_opt platform)
  end.

Definition validate_url (url : string) : option string * string :=
  validate_parsed (add_scheme url).

End Validator.

(** ** The world: spreadsheet, Slack, clock, logger *)

Record datetime := mkDate {
  year : Z; month : Z; day : Z;
  hour : Z; minute : Z; second : Z }.

(** The value under ["profile"] of a Slack user object. *)
Inductive profile_value :=
  | ProfileAbsent
  | ProfileNull
  | ProfileDict (display_name : option string).

(** A Slack user object; a name field is [None] when the key is absent
    or null. *)
Record slack_user := mkUser {
  real_name : option string;
  profile : profile_value;
  name : option string }.

(** The response of [users_info]. *)
Record users_info_result := mkInfo {
  ok : bool;
  user : option slack_user }.

Inductive level := INFO | ERROR.

(** [sheet] is what the backend returns for the range A:E of the sheet,
    row 1 first.  [faults] scripts the remote calls to come: each remote
    call consumes one entry, and [Some e] makes that call raise [e]. *)
Record World := mkWorld {
  sheet : list (list string);
  directory : option string -> users_info_result;
  now : datetime;
  faults : list (option string);
  log : list (level * string);
  said : list string }.

Definition set_sheet (v : list (list string)) (w : World) : World :=
  mkWorld v (directory w) (now w) (faults w) (log w) (said w).
Definition set_faults (v : list (option string)) (w : World) : World :=
  mkWorld (sheet w) (directory w) (now w) v (log w) (said w).
Definition set_log (v : list (level * string)) (w : World) : World :=
  mkWorld (sheet w) (directory w) (now w) (faults w) v (said w).
Definition set_said (v : list string) (w : World) : World :=
  mkWorld (sheet w) (directory w) (now w) (faults w) (log w) v.

(** *** Programs *)

Definition M (A : Type) : Type := World -> exc A * World.

Definition ret {A} (a : A) : M A := fun w => (Ok a, w).

Definition raise {A} (e : string) : M A := fun w => (Raise e, w).

Definition bind {A B} (m : M A) (k : A -> M B) : M B :=
  fun w =>
    match m w with
    | (Ok a, w') => k a w'
    | (Raise e, w') => (Raise e, w')
    end.

(** [try: body except Exception as e: handler] *)
Definition try_except {A} (body : M A) (handler : string -> M A) : M A :=
  fun w =>
    match body w with
    | (Ok a, w') => (Ok a, w')
    | (Raise e, w') => handler e w'
    end.

Declare Scope prog_scope.
Delimit Scope prog_scope with prog.
Notation "x <- m ;; k" := (bind m (fun x => k))
  (at level 61, m at next level, right associativity) : prog_scope.
Notation "m ;; k" := (bind m (fun _ => k))
  (at level 61, right associativity) : prog_scope.
Local Open Scope prog_scope.

Definition logger_info (msg : string) : M unit :=
  fun w => (Ok tt, set_log (log w ++ [(INFO, msg)]) w).

Definition logger_error (msg : string) : M unit :=
  fun w => (Ok tt, set_log (log w ++ [(ERROR, msg)]) w).

(** A call to a remote collaborator. *)
Definition remote {A} (call : World -> A * World) : M A :=
  fun w =>
    match faults w with
    | Some e :: rest => (Raise e, set_faults rest w)
    | None :: rest => let (a, w') := call (set_faults rest w) in (Ok a, w')
    | [] => let (a, w') := call w in (Ok a, w')
    end.

(** *** The spreadsheet backend *)

Definition row_blank (row : list string) : bool :=
  forallb (fun cell => String.eqb cell "") row.

(** [values().get(range="<sheet>!A:E").execute().get('values', [])] *)
Definition values_get_all : M (list (list string)) :=
  remote (fun w => (sheet w, w)).

(** [values().get(range="<sheet>!A1:E1").execute().get('values', [])]:
    no values when row 1 is blank. *)
Definition values_get_row1 : M (list (list string)) :=
  remote (fun w =>
    (match sheet w with
     | row :: _ => if row_blank row then [] else [row]
     | [] => []
     end, w)).

(** [values().update(range="<sheet>!A1:E1", body={'values': [row]})] *)
Definition values_update_row1 (row : list string) : M unit :=
  remote (fun w => (tt, set_sheet (row :: tl (sheet w)) w)).

(** A [None] written with [valueInputOption='RAW'] leaves its cell empty. *)
Definition cell_text (v : option string) : string :=
  match v with
  | Some s => s
  | None => ""
  end.

(** [values().append(range="<sheet>!A:E", body={'values': [row]})] *)
Definition values_append (row : list (option string)) : M unit :=
  remote (fun w => (tt, set_sheet (sheet w ++ [map cell_text row]) w)).

(** *** Slack *)

(** [app.client.users_info(user=user_id)] *)
Definition users_info (user_id : option string) : M users_info_result :=
  remote (fun w => (directory w user_id, w)).

(** [say(msg)] *)
Definition say (msg : string) : M unit :=
  remote (fun w => (tt, set_said (said w ++ [msg]) w)).

(** *** The clock *)

(** The decimal digit of the units of [n]. *)
Definition digit (n : Z) : ascii := ascii_of_nat (48 + Z.to_nat (n mod 10)).

(** A number below 100 as two digits, as [%m %d %H %M %S] print it. *)
Definition pad2 (n : Z) : string :=
  String (digit (n / 10)) (String (digit n) EmptyString).

(** A year from 1000 to 9999 as [%Y] prints it. *)
Definition pad4 (n : Z) : string :=
  String (digit (n / 1000)) (String (digit (n / 100)) (pad2 n)).

(** [d.strftime("%Y-%m-%d %H:%M:%S")] *)
Definition strftime (d : datetime) : string :=
  pad4 (year d) ++ "-" ++ pad2 (month d) ++ "-" ++ pad2 (day d) ++ " " ++
  pad2 (hour d) ++ ":" ++ pad2 (minute d) ++ ":" ++ pad2 (second d).

(** The values [datetime.now()] can take. *)
Definition valid_datetime (d : datetime) : Prop :=
  (1000 <= year d <= 9999 /\ 1 <= month d <= 12 /\ 1 <= day d <= 31 /\
   0 <= hour d < 24 /\ 0 <= minute d < 60 /\ 0 <= second d < 60)%Z.

Definition datetime_now : M datetime := fun w => (Ok (now w), w).

(** ** The duplicate checker *)

(** The loop of [check_duplicate_url] over the rows it is given. *)
Fixpoint scan_rows (rows : list (list string)) (url : string) : bool :=
  match rows with
  | [] => false
  | row :: rest =>
      if (1 <? length row)%nat && String.eqb (nth 1 row "") url then true
      else scan_rows rest url
  end.

(** [values[1:] if len(values) > 1 else []] *)
Definition skip_header (values : list (list string)) : list (list string) :=
  if (1 <? length values)%nat then skipn 1 values else [].

Definition check_duplicate_url (url : string) : M bool :=
  try_except
    (values <- values_get_all ;;
     ret (scan_rows (skip_header values) url))
    (fun e =>
       logger_error ("Error checking duplicates: " ++ e) ;;
       ret false).

(** ** The queue appender *)

(** [user.get("profile", {}).get("display_name")] *)
Definition get_display_name (p : profile_value) : M (option string) :=
  match p with
  | ProfileAbsent => ret None
  | ProfileNull => raise "'NoneType' object has no attribute 'get'"
  | ProfileDict display_name => ret display_name
  end.

(** The [try] block of [get_user_name]: [Some v] when it returns [v],
    [None] when control leaves it without a [return]. *)
Definition get_user_name_try (user_id : option string)
  : M (option (option string)) :=
  result <- users_info user_id ;;
  if ok result then
    match user result with
    | None => raise "'user'"
    | Some user =>
        if truthy (real_name user) then ret (Some (real_name user))
        else
          display_name <- get_display_name (profile user) ;;
          if truthy display_name then ret (Some display_name)
          else ret (Some (name user))
    end
  else ret None.

Definition get_user_name (user_id : option string) : M (option string) :=
  returned <- try_except (get_user_name_try user_id)
                (fun e =>
                   logger_error ("Error fetching user info: " ++ e) ;;
                   ret None) ;;
  match returned with
  | Some v => ret v
  | None => ret (Some "Unknown User")
  end.

(** [row_data] of [add_to_sheet]. *)
Definition row_data (timestamp url platform : string)
    (user_name : option string) : list (option string) :=
  [ Some timestamp;    (* Column A: Timestamp *)
    Some url;          (* Column B: URL *)
    Some platform;     (* Column C: Platform *)
    user_name;         (* Column D: Requester *)
    Some "Pending" ].  (* Column E: Status *)

Definition add_to_sheet (url platform : string) (user_id : option string)
  : M bool :=
  try_except
    (d <- datetime_now ;;
     let timestamp := strftime d in
     user_name <- get_user_name user_id ;;
     values_append (row_data timestamp url platform user_name) ;;
     ret true)
    (fun e =>
       logger_error ("Error adding to sheet: " ++ e) ;;
       ret false).

(** ** The header initializer *)

Definition headers : list string :=
  ["Timestamp"; "URL"; "Platform"; "Requester"; "Status"].

Definition setup_sheet_headers : M unit :=
  try_except
    (values <- values_get_row1 ;;
     match values with
     | [] =>
         values_update_row1 headers ;;
         logger_info "Sheet headers created"
     | _ :: _ => ret tt
     end)
    (fun e => logger_error ("Error setting up headers: " ++ e)).

(** ** The mention handler *)

(** *** [re.findall(r'https?://[^\s<>]+', text)] *)

Definition is_space (c : ascii) : bool :=
  let n := nat_of_ascii c in
  (((9 <=? n) && (n <=? 13)) || ((28 <=? n) && (n <=? 32)))%nat.

(** The class [[^\s<>]]. *)
Definition url_char (c : ascii) : bool :=
  negb (is_space c || Ascii.eqb c "<" || Ascii.eqb c ">").

(** The longest prefix of [s] made of [url_char]s: what [[^\s<>]+]
    consumes, being greedy. *)
Fixpoint url_run (s : string) : string :=
  match s with
  | EmptyString => EmptyString
  | String c s' => if url_char c then String c (url_run s') else EmptyString
  end.

Fixpoint drop (n : nat) (s : string) : string :=
  match n, s with
  | S k, String _ s' => drop k s'
  | _, _ => s
  end.

(** The match of [scheme] followed by [[^\s<>]+] at the start of [s]. *)
Definition match_with (scheme s : string) : option string :=
  if startswith s scheme then
    match url_run (drop (String.length scheme) s) with
    | EmptyString => None
    | run => Some (scheme ++ run)%string
    end
  else None.

(** The match of the pattern at the start of [s]: [s?] first tries to
    consume an [s]. *)
Definition match_here (s : string) : option string :=
  match match_with "https://" s with
  | Some m => Some m
  | None => match_with "http://" s
  end.

(** The scan of [findall]: [skip] counts the characters of the last match
    that are still to be passed over. *)
Fixpoint findall_from (skip : nat) (s : string) : list string :=
  match s with
  | EmptyString => []
  | String _ s' =>
      match skip with
      | S k => findall_from k s'
      | O =>
          match match_here s with
          | Some m => m :: findall_from (String.length m - 1) s'
          | None => findall_from 0 s'
          end
      end
  end.

Definition findall_urls (text : string) : list string := findall_from 0 text.

(** *** The handler *)

(** The mention event: [text] is [None] when the key is absent. *)
Record event := mkEvent {
  text : option string;
  user_of : option string }.

(** [event.get('text', '')] *)
Definition event_text (ev : event) : string :=
  match text ev with
  | Some t => t
  | None => ""
  end.

Definition msg_usage (user : option string) : string :=
  "<@" ++ of_opt user ++ "> Please include a social media URL in your message." ++ nl ++
  "Supported platforms: Instagram, TikTok, YouTube".

Definition msg_apology (user : option string) : string :=
  "<@" ++ of_opt user ++ "> Sorry, something went wrong. Please try again later.".

Section Mention.

(** The three stages of the pipeline, as the handler calls them. *)
Variable validate_url_ : string -> option string * string.
Variable check_duplicate_url_ : string -> M bool.
Variable add_to_sheet_ : string -> string -> option string -> M bool.

(** The [for url in urls] loop, with its two accumulators. *)
Fixpoint process_urls (urls : list string) (user : option string)
    (processed_urls errors : list string) : M (list string * list string) :=
  match urls with
  | [] => ret (processed_urls, errors)
  | url0 :: rest =>
      let url := strip "<>" url0 in
      logger_info ("Processing URL: " ++ url) ;;
      let (validated, result) := validate_url_ url in
      match validated with
      | Some (String _ _ as validated_url) =>
          let platform := result in
          duplicate <- check_duplicate_url_ validated_url ;;
          if duplicate then
            process_urls rest user processed_urls
              (errors ++ [("• " ++ url ++ ": Already exists in database")%string])
          else
            added <- add_to_sheet_ validated_url platform user ;;
            if added then
              process_urls rest user
                (processed_urls ++ [("• " ++ platform ++ ": " ++ validated_url)%string])
                errors
            else
              process_urls rest user processed_urls
                (errors ++ [("• " ++ url ++ ": Failed to add to database")%string])
      | _ =>
          process_urls rest user processed_urls
            (errors ++ [("• " ++ url ++ ": " ++ result)%string])
      end
  end.

Definition is_nil {A} (l : list A) : bool :=
  match l with
  | [] => true
  | _ :: _ => false
  end.

Definition compose_response (user : option string)
    (processed_urls errors : list string) : string :=
  let response := "<@" ++ of_opt user ++ "> URL Processing Results:" ++ nl ++ nl in
  let response :=
    if negb (is_nil processed_urls)
    then response ++ "✅ *Successfully Added:*" ++ nl ++ join nl processed_urls ++ nl ++ nl
    else response in
  let response :=
    if negb (is_nil errors)
    then response ++ "❌ *Errors:*" ++ nl ++ join nl errors ++ nl ++ nl
    else response in
  if negb (is_nil processed_urls)
  then response ++ "_URLs will be scraped in the next batch run (every ~6 hours)_"
  else response.

(** The [try] block of [handle_mention]. *)
Definition handle_mention_try (text : string) (user : option string) : M unit :=
  logger_info ("Received mention from user " ++ of_opt user) ;;
  let urls := findall_urls text in
  if is_nil urls then say (msg_usage user)
  else
    r <- process_urls urls user [] [] ;;
    let (processed_urls, errors) := r in
    say (compose_response user processed_urls errors) ;;
    logger_info ("Processed " ++ of_nat (List.length processed_urls) ++
                 " URLs successfully, " ++ of_nat (List.length errors) ++ " errors").

Definition handle_mention_with (ev : event) : M unit :=
  let text := event_text ev in
  let user := user_of ev in
  try_except (handle_mention_try text user)
    (fun e =>
       logger_error ("Error handling mention: " ++ e) ;;
       say (msg_apology user)).

End Mention.

(** [handle_mention], with the stages the module defines. *)
Definition handle_mention (urlparse : string -> exc ParseResult) (ev : event)
  : M unit :=
  handle_mention_with (validate_url urlparse) check_duplicate_url add_to_sheet ev.

(** A world to run the programs in: an empty sheet, a directory that
    knows one user, no fault. *)
Definition world0 : World :=
  mkWorld [] (fun _ => mkInfo true (Some (mkUser (Some "Jane Doe") ProfileAbsent (Some "jane"))))
    (mkDate 2024 3 7 9 5 0) [] [] [].

(** A directory whose user has no name to show: the real name and the
    display name are empty and the username is absent. *)
Definition world_nameless : World :=
  mkWorld []
    (fun _ => mkInfo true (Some (mkUser (Some "") (ProfileDict (Some "")) None)))
    (mkDate 2024 3 7 9 5 0) [] [] [].

(** ** The timestamp format of the specification *)

Definition is_digit (c : ascii) : bool :=
  let n := nat_of_ascii c in ((48 <=? n) && (n <=? 57))%nat.

(** [YYYY-MM-DD HH:MM:SS] *)
Definition timestamp_format (s : string) : bool :=
  match list_ascii_of_string s with
  | [y1; y2; y3; y4; h1; m1; m2; h2; d1; d2; sp; H1; H2; c1; M1; M2; c2; S1; S2] =>
      forallb is_digit [y1; y2; y3; y4; m1; m2; d1; d2; H1; H2; M1; M2; S1; S2] &&
      Ascii.eqb h1 "-" && Ascii.eqb h2 "-" && Ascii.eqb sp " " &&
      Ascii.eqb c1 ":" && Ascii.eqb c2 ":"
  | _ => false
  end.

Definition digit_value (c : ascii) : Z := Z.of_nat (nat_of_ascii c) - 48.

(** The date and time a string of that form denotes. *)
Definition read_timestamp (s : string) : option datetime :=
  match list_ascii_of_string s with
  | [y1; y2; y3; y4; _; m1; m2; _; d1; d2; _; H1; H2; _; M1; M2; _; S1; S2] =>
      let two a b := (10 * digit_value a + digit_value b)%Z in
      Some (mkDate (100 * two y1 y2 + two y3 y4) (two m1 m2) (two d1 d2)
              (two H1 H2) (two M1 M2) (two S1 S2))
  | _ => None
  end.

(** ** The URL pattern of the specification *)

Fixpoint all_url_chars (s : string) : bool :=
  match s with
  | EmptyString => true
  | String c s' => url_char c && all_url_chars s'
  end.

(** The strings the pattern matches as a whole: [http://] or [https://],
    then one or more characters that are neither white space nor angle
    brackets. *)
Definition url_pattern (m : string) : Prop :=
  exists scheme run,
    (scheme = "https://" \/ scheme = "http://") /\
    m = scheme ++ run /\ run <> "" /\ all_url_chars run = true.


(** The queue of the deduplication example: the header and one row. *)
Definition queue_foo : World :=
  set_sheet
    [ headers;
      ["2024-03-07 09:05:00"; "https://instagram.com/foo"; "Instagram";
       "Jane Doe"; "Pending"] ]
    world0.

(** A sheet whose row 1 holds other column names. *)
Definition world_other_header : World :=
  set_sheet [["When"; "Link"]; ["2024-03-07 09:05:00"; "https://youtu.be/abc"]]
    world0.

(** Row 1 of the sheet has no content. *)
Definition row1_blank (s : list (list string)) : bool :=
  match s with
  | [] => true
  | row :: _ => row_blank row
  end.

(** ** The slash command handler *)

(** [s.strip()]: white space removed at both ends. *)
Fixpoint lstrip_space (s : string) : string :=
  match s with
  | EmptyString => EmptyString
  | String c s' => if is_space c then lstrip_space s' else s
  end.

Fixpoint rstrip_space (s : string) : string :=
  match s with
  | EmptyString => EmptyString
  | String c s' =>
      match rstrip_space s' with
      | EmptyString => if is_space c then EmptyString else String c EmptyString
      | r => String c r
      end
  end.

Definition strip_space (s : string) : string := rstrip_space (lstrip_space s).

(** The command payload: a field is [None] when its key is absent. *)
Record command := mkCommand {
  cmd_text : option string;
  cmd_user_id : option string }.

(** [command[key]]: a [KeyError] when the key is absent. *)
Definition subscript (key : string) (v : option string) : M string :=
  match v with
  | Some s => ret s
  | None => raise ("'" ++ key ++ "'")
  end.

Definition msg_slash_usage : string :=
  "Please provide a URL: `/add-influencer https://instagram.com/username`".

Definition msg_slash_added (platform validated_url : string) : string :=
  "✅ Added " ++ platform ++ " URL to scrape queue!" ++ nl ++
  "URL: " ++ validated_url ++ nl ++
  "_Will be processed in the next batch run (~6 hours)_".

Definition msg_slash_apology : string :=
  "❌ Sorry, something went wrong. Please try again later.".

Section Slash.

(** The three stages of the pipeline and the two callbacks Bolt passes to
    the handler. *)
Variable validate_url_ : string -> option string * string.
Variable check_duplicate_url_ : string -> M bool.
Variable add_to_sheet_ : string -> string -> option string -> M bool.
Variable ack : M unit.
Variable respond : string -> M unit.

(** What follows the reading of the command, from [if not url] on. *)
Definition slash_pipeline (url user : string) : M unit :=
  if negb (truthy (Some url)) then respond msg_slash_usage
  else
    let (validated, result) := validate_url_ url in
    match validated with
    | Some (String _ _ as validated_url) =>
        let platform := result in
        duplicate <- check_duplicate_url_ validated_url ;;
        if duplicate then
          respond ("❌ URL already exists in database: " ++ url)
        else
          added <- add_to_sheet_ validated_url platform (Some user) ;;
          if added then
            respond (msg_slash_added platform validated_url) ;;
            logger_info ("Successfully added URL: " ++ validated_url)
          else
            respond "❌ Failed to add URL to database. Please try again." ;;
            logger_error ("Failed to add URL: " ++ validated_url)
    | _ => respond ("❌ " ++ result)
    end.

(** The [try] block of [handle_slash_command]. *)
Definition handle_slash_command_try (cmd : command) : M unit :=
  ack ;;
  text <- subscript "text" (cmd_text cmd) ;;
  let url := strip_space text in
  user <- subscript "user_id" (cmd_user_id cmd) ;;
  logger_info ("Received slash command from user " ++ user) ;;
  slash_pipeline url user.

Definition handle_slash_command_with (cmd : command) : M unit :=
  try_except (handle_slash_command_try cmd)
    (fun e =>
       logger_error ("Error handling slash command: " ++ e) ;;
       respond msg_slash_apology).

End Slash.

(** [ack()]: the acknowledgement sent to Slack. *)
Definition slack_ack : M unit := remote (fun w => (tt, w)).

(** [handle_slash_command], with the stages the module defines; a
    response is recorded with the messages the bot has sent. *)
Definition handle_slash_command (urlparse : string -> exc ParseResult)
    (cmd : command) : M unit :=
  handle_slash_command_with (validate_url urlparse) check_duplicate_url
    add_to_sheet slack_ack say cmd.

(** [global_error_handler] *)
Definition global_error_handler (error body : string) : M unit :=
  logger_error ("Error: " ++ error) ;;
  logger_error ("Request body: " ++ body).

(** ** The check of the environment at start-up *)

(** The variables the module reads: [None] when a variable is not set. *)
Record environ := mkEnviron {
  env_SLACK_BOT_TOKEN : option string;
  env_SLACK_APP_TOKEN : option string;
  env_GOOGLE_CREDENTIALS_FILE : option string;
  env_SPREADSHEET_ID : option string;
  env_SHEET_NAME : option string }.

(** [os.getenv(name, default)] *)
Definition getenv_default (v : option string) (default : string) : string :=
  match v with
  | Some s => s
  | None => default
  end.

Definition GOOGLE_CREDENTIALS_FILE (env : environ) : string :=
  getenv_default (env_GOOGLE_CREDENTIALS_FILE env) "credentials.json".

Definition SHEET_NAME (env : environ) : string :=
  getenv_default (env_SHEET_NAME env) "Scrape Requests".

(** [missing_vars], given [os.path.exists]. *)
Definition missing_vars (path_exists : string -> bool) (env : environ)
  : list string :=
  let missing_vars : list string := [] in
  let missing_vars :=
    if negb (truthy (env_SLACK_BOT_TOKEN env))
    then (missing_vars ++ ["SLACK_BOT_TOKEN"])%list else missing_vars in
  let missing_vars :=
    if negb (truthy (env_SLACK_APP_TOKEN env))
    then (missing_vars ++ ["SLACK_APP_TOKEN"])%list else missing_vars in
  let missing_vars :=
    if negb (truthy (env_SPREADSHEET_ID env))
    then (missing_vars ++ ["SPREADSHEET_ID"])%list else missing_vars in
  if negb (path_exists (GOOGLE_CREDENTIALS_FILE env))
  then (missing_vars ++
        [("GOOGLE_CREDENTIALS_FILE (" ++ GOOGLE_CREDENTIALS_FILE env ++ ")")%string])%list
  else missing_vars.

(** The check itself: the process exits with status 1, after logging the
    names, when a variable is missing. *)
Definition check_environment (path_exists : string -> bool) (env : environ)
  : list (level * string) * option nat :=
  match missing_vars path_exists env with
  | [] => ([(INFO, "All required environment variables are present")], None)
  | missing =>
      ([(ERROR, "Missing required environment variables: " ++ join ", " missing)],
       Some 1)
  end.

(** The three labels of the platform table. *)
Definition platform_name (p : string) : Prop :=
  p = "Instagram" \/ p = "TikTok" \/ p = "YouTube".

(** A row as the appender writes it. *)
Definition pending_row (row : list string) : Prop :=
  length row = 5 /\ nth 4 row "" = "Pending".

(** The number of characters of the strings of a list. *)
Definition total_length (l : list string) : nat :=
  fold_right (fun m n => String.length m + n) 0 l.

(** A directory whose user has a username only. *)
Definition world_username_only : World :=
  mkWorld []
    (fun _ => mkInfo true (Some (mkUser None (ProfileDict (Some "")) (Some "jane"))))
    (mkDate 2024 3 7 9 5 0) [] [] [].

(** A directory whose user has an empty real name and a null profile. *)
Definition world_null_profile : World :=
  mkWorld []
    (fun _ => mkInfo true (Some (mkUser (Some "") ProfileNull (Some "jane"))))
    (mkDate 2024 3 7 9 5 0) [] [] [].

(** * Properties *)

(** Closes a goal [exists v w', run = (Ok v, w') /\ ...] once the run has
    been computed. *)
Ltac finish_run :=
  eapply ex_intro; eapply ex_intro;
  repeat (split; try reflexivity).

Ltac close_run Ef :=
  eapply ex_intro; eapply ex_intro;
  repeat split; cbn; rewrite ?Ef; try reflexivity; intros; discriminate.

(** ** Strings *)

Lemma startswith_app (p s : string) : startswith (p ++ s) p = true.
Proof.
  induction p as [|a p IH]; simpl; [reflexivity|].
  now rewrite Ascii.eqb_refl.
Qed.

Lemma startswith_inv (s p : string) :
  startswith s p = true -> exists rest, s = p ++ rest.
Proof.
  revert s; induction p as [|a p IH]; intros s H.
  - now exists s.
  - destruct s as [|b s]; simpl in H; [discriminate|].
    apply andb_true_iff in H as [Hab Hs].
    apply Ascii.eqb_eq in Hab; subst b.
    destruct (IH _ Hs) as [rest ->].
    now exists rest.
Qed.

Lemma add_scheme_has_scheme (url : string) :
  startswith_any (add_scheme url) ["http://"; "https://"] = true.
Proof.
  unfold add_scheme.
  destruct (startswith_any url ["http://"; "https://"]) eqn:E; simpl negb; cbv iota.
  - exact E.
  - unfold startswith_any.
    change (existsb (startswith ("https://" ++ url)) ["http://"; "https://"])
      with (startswith ("https://" ++ url) "http://" ||
            (startswith ("https://" ++ url) "https://" || false)).
    rewrite (startswith_app "https://" url). now rewrite orb_true_r.
Qed.

Lemma add_scheme_idem (url : string) :
  add_scheme (add_scheme url) = add_scheme url.
Proof.
  unfold add_scheme at 1. now rewrite add_scheme_has_scheme.
Qed.

(** ** The platform table *)

Lemma classify_Some (tbl : list (string * string)) (host p : string) :
  classify tbl host = Some p ->
  exists d, In (d, p) tbl /\ str_in d host = true.
Proof.
  induction tbl as [|[d0 p0] tbl IH]; simpl; [discriminate|].
  destruct (str_in d0 host) eqn:E; intros H.
  - injection H as <-. exists d0; auto.
  - destruct (IH H) as (d & Hin & Hd). exists d; auto.
Qed.

Lemma classify_None (tbl : list (string * string)) (host : string) :
  classify tbl host = None ->
  forall d p, In (d, p) tbl -> str_in d host = false.
Proof.
  induction tbl as [|[d0 p0] tbl IH]; simpl; [contradiction|].
  destruct (str_in d0 host) eqn:E; [discriminate|].
  intros H d p [Heq | Hin]; [now injection Heq as <- <- | eauto].
Qed.

Lemma classify_first_match (pre post : list (string * string))
    (d p host : string) :
  (forall d' p', In (d', p') pre -> str_in d' host = false) ->
  str_in d host = true ->
  classify (pre ++ (d, p) :: post)%list host = Some p.
Proof.
  induction pre as [|[d0 p0] pre IH]; simpl; intros Hpre Hd.
  - now rewrite Hd.
  - rewrite (Hpre d0 p0) by auto. apply IH; eauto.
Qed.

Lemma classify_permutation (t1 t2 : list (string * string)) (host : string) :
  Permutation t1 t2 -> one_platform t1 host ->
  classify t2 host = classify t1 host.
Proof.
  intros Hperm Hone.
  destruct (classify t1 host) as [p1|] eqn:E1.
  - destruct (classify_Some _ _ _ E1) as (d1 & Hin1 & Hd1).
    destruct (classify t2 host) as [p2|] eqn:E2.
    + destruct (classify_Some _ _ _ E2) as (d2 & Hin2 & Hd2).
      f_equal. apply (Hone d2 p2 d1 p1); auto.
      eapply Permutation_in; [apply Permutation_sym; eassumption | assumption].
    + pose proof (classify_None _ _ E2 d1 p1
                    (Permutation_in _ Hperm Hin1)) as Hf.
      congruence.
  - destruct (classify t2 host) as [p2|] eqn:E2; [|reflexivity].
    destruct (classify_Some _ _ _ E2) as (d2 & Hin2 & Hd2).
    pose proof (classify_None _ _ E1 d2 p2
                  (Permutation_in _ (Permutation_sym Hperm) Hin2)) as Hf.
    congruence.
Qed.

Lemma supported_platform_names (host p : string) :
  classify SUPPORTED_PLATFORMS host = Some p ->
  p = "Instagram" \/ p = "TikTok" \/ p = "YouTube".
Proof.
  intros H. destruct (classify_Some _ _ _ H) as (d & Hin & _).
  simpl in Hin.
  repeat (destruct Hin as [Hin | Hin]; [injection Hin as _ <-; auto|]).
  contradiction.
Qed.

(** C2, as stated, fails: the host [instagram.com.tiktok.com] contains the
    substrings of two platforms, and the two iteration orders of the table
    classify it differently. *)
Lemma platform_substrings_overlap :
  let host := "instagram.com.tiktok.com" in
  str_in "instagram.com" host = true /\
  str_in "tiktok.com" host = true /\
  Permutation SUPPORTED_PLATFORMS (rev SUPPORTED_PLATFORMS) /\
  classify SUPPORTED_PLATFORMS host = Some "Instagram" /\
  classify (rev SUPPORTED_PLATFORMS) host = Some "TikTok" /\
  ~ one_platform SUPPORTED_PLATFORMS host.
Proof.
  repeat split; try reflexivity.
  - apply Permutation_rev.
  - intros H.
    specialize (H "instagram.com" "Instagram" "tiktok.com" "TikTok").
    simpl in H.
    assert (E : "Instagram" = "TikTok") by (apply H; auto).
    discriminate E.
Qed.

(** C2, amended: the Validator takes the first entry, in the order
    [SUPPORTED_PLATFORMS] declares, that occurs in the host; and for every
    host in which all occurring entries name the same platform, every
    iteration order of the table gives the same classification. *)
Theorem classify_order_independent :
  forall (tbl : list (string * string)) (host : string),
    (forall pre d p post,
        SUPPORTED_PLATFORMS = (pre ++ (d, p) :: post)%list ->
        (forall d' p', In (d', p') pre -> str_in d' host = false) ->
        str_in d host = true ->
        classify SUPPORTED_PLATFORMS host = Some p) /\
    (Permutation SUPPORTED_PLATFORMS tbl ->
     one_platform SUPPORTED_PLATFORMS host ->
     classify tbl host = classify SUPPORTED_PLATFORMS host).
Proof.
  intros tbl host; split.
  - intros pre d p post -> Hpre Hd. now apply classify_first_match.
  - intros Hperm Hone. now apply classify_permutation.
Qed.

Lemma classify_order_independent_witness :
  classify SUPPORTED_PLATFORMS "m.youtube.com" = Some "YouTube" /\
  classify (rev SUPPORTED_PLATFORMS) "m.youtube.com" =
  classify SUPPORTED_PLATFORMS "m.youtube.com".
Proof.
  destruct (classify_order_independent (rev SUPPORTED_PLATFORMS) "m.youtube.com")
    as [Hfirst Hperm].
  split.
  - apply (Hfirst [("instagram.com", "Instagram"); ("tiktok.com", "TikTok")]
             "youtube.com" "YouTube" [("youtu.be", "YouTube")]).
    + reflexivity.
    + intros d' p' Hin. simpl in Hin.
      destruct Hin as [Hin | [Hin | []]]; injection Hin as <- _; reflexivity.
    + reflexivity.
  - apply Hperm.
    + apply Permutation_rev.
    + intros d1 p1 d2 p2 H1 H2 E1 E2. simpl in H1, H2.
      destruct H1 as [H1 | [H1 | [H1 | [H1 | []]]]]; injection H1 as <- <-;
        try discriminate E1;
        destruct H2 as [H2 | [H2 | [H2 | [H2 | []]]]]; injection H2 as <- <-;
        try discriminate E2; reflexivity.
Defined.

(** ** The validator *)

Section ValidatorFacts.

Variable urlparse : string -> exc ParseResult.

Lemma validate_url_add_scheme (url : string) :
  validate_url urlparse (add_scheme url) = validate_url urlparse url.
Proof.
  unfold validate_url. now rewrite add_scheme_idem.
Qed.

Lemma validate_parsed_success (url out platform : string) :
  validate_parsed urlparse url = (Some out, platform) -> out = url.
Proof.
  unfold validate_parsed.
  destruct (urlparse url) as [parsed|e]; [|discriminate].
  cbv zeta.
  destruct (negb (truthy (classify SUPPORTED_PLATFORMS (lower (netloc parsed)))));
    [discriminate|].
  destruct (negb (truthy (Some (path parsed))) || String.eqb (path parsed) "/");
    [discriminate|].
  intros H. now injection H as <- _.
Qed.

(** C3: a string that starts with neither [http://] nor [https://] is
    parsed and classified with [https://] in front of it; and on success
    the Validator returns the input string itself when it has such a
    prefix, and the input string with [https://] in front of it when it
    has none. *)
Theorem validate_url_scheme :
  forall (url : string),
    (startswith_any url ["http://"; "https://"] = false ->
     validate_url urlparse url = validate_parsed urlparse ("https://" ++ url) /\
     validate_url urlparse url = validate_url urlparse ("https://" ++ url)) /\
    (forall out platform,
        validate_url urlparse url = (Some out, platform) ->
        (startswith_any url ["http://"; "https://"] = true -> out = url) /\
        (startswith_any url ["http://"; "https://"] = false ->
         out = "https://" ++ url)).
Proof.
  intros url; split.
  - intros Hno.
    assert (E : add_scheme url = "https://" ++ url)
      by (unfold add_scheme; now rewrite Hno).
    split.
    + unfold validate_url. now rewrite E.
    + rewrite <- E. symmetry. apply validate_url_add_scheme.
  - intros out platform H.
    apply validate_parsed_success in H. subst out.
    unfold add_scheme.
    split; intros E; now rewrite E.
Qed.

(** C6: when the host of the URL matches a supported platform and its path
    is empty or [/], the Validator fails with the invalid-path message,
    which names the platform that was detected. *)
Theorem validate_url_invalid_path :
  forall (url : string) (parsed : ParseResult) (platform : string),
    urlparse (add_scheme url) = Ok parsed ->
    classify SUPPORTED_PLATFORMS (lower (netloc parsed)) = Some platform ->
    path parsed = "" \/ path parsed = "/" ->
    validate_url urlparse url =
      (None, "Invalid " ++ platform ++ " URL. Please provide a profile/channel URL.") /\
    str_in platform (snd (validate_url urlparse url)) = true.
Proof.
  intros url parsed platform Hparse Hclass Hpath.
  assert (E : validate_url urlparse url = (None, msg_invalid_path platform)).
  { unfold validate_url, validate_parsed. rewrite Hparse. cbv zeta.
    rewrite Hclass.
    destruct (supported_platform_names _ _ Hclass) as [-> | [-> | ->]];
      destruct Hpath as [-> | ->]; reflexivity. }
  rewrite E. split; [reflexivity|].
  destruct (supported_platform_names _ _ Hclass) as [-> | [-> | ->]];
    reflexivity.
Qed.

(** C10: the host is lowercased before it is matched.  Two URLs whose
    hosts differ only in letter case, with the same path, get the same
    platform or the same rejection; and a URL whose host is a supported
    domain in any letter case is classified as that domain's platform. *)
Theorem validate_url_host_case_insensitive :
  forall (url : string) (parsed : ParseResult),
    urlparse (add_scheme url) = Ok parsed ->
    (forall url' parsed',
        urlparse (add_scheme url') = Ok parsed' ->
        lower (netloc parsed') = lower (netloc parsed) ->
        path parsed' = path parsed ->
        snd (validate_url urlparse url') = snd (validate_url urlparse url)) /\
    (forall d p,
        In (d, p) SUPPORTED_PLATFORMS ->
        lower (netloc parsed) = d ->
        classify SUPPORTED_PLATFORMS (lower (netloc parsed)) = Some p /\
        classify SUPPORTED_PLATFORMS d = Some p /\
        (path parsed <> "" -> path parsed <> "/" ->
         validate_url urlparse url = (Some (add_scheme url), p))).
Proof.
  intros url parsed Hparse; split.
  - intros url' parsed' Hparse' Hhost Hpath.
    unfold validate_url, validate_parsed.
    rewrite Hparse, Hparse'. cbv zeta. rewrite Hhost, Hpath.
    destruct (negb (truthy (classify SUPPORTED_PLATFORMS (lower (netloc parsed)))));
      [reflexivity|].
    destruct (negb (truthy (Some (path parsed))) || String.eqb (path parsed) "/");
      reflexivity.
  - intros d p Hin Hd.
    assert (Hc : classify SUPPORTED_PLATFORMS d = Some p).
    { simpl in Hin.
      destruct Hin as [Hin | [Hin | [Hin | [Hin | []]]]];
        injection Hin as <- <-; reflexivity. }
    rewrite Hd. repeat split; try exact Hc.
    intros Hne Hns.
    unfold validate_url, validate_parsed. rewrite Hparse. cbv zeta.
    rewrite Hd, Hc.
    assert (Hp : p = "Instagram" \/ p = "TikTok" \/ p = "YouTube")
      by (eapply supported_platform_names; exact Hc).
    assert (Ht : negb (truthy (Some p)) = false)
      by (destruct Hp as [-> | [-> | ->]]; reflexivity).
    rewrite Ht.
    destruct (path parsed) as [|c rest] eqn:Ep; [congruence|].
    destruct (String.eqb (String c rest) "/") eqn:Eq.
    + apply String.eqb_eq in Eq. congruence.
    + reflexivity.
Qed.

End ValidatorFacts.

Lemma validate_url_scheme_witness :
  startswith_any "tiktok.com/@jane" ["http://"; "https://"] = false /\
  validate_url UrlParse.urlparse "tiktok.com/@jane" =
    validate_parsed UrlParse.urlparse "https://tiktok.com/@jane" /\
  validate_url UrlParse.urlparse "tiktok.com/@jane" =
    (Some "https://tiktok.com/@jane", "TikTok") /\
  validate_url UrlParse.urlparse "http://youtu.be/abc" =
    (Some "http://youtu.be/abc", "YouTube").
Proof.
  destruct (validate_url_scheme UrlParse.urlparse "tiktok.com/@jane")
    as [Hpre _].
  destruct (Hpre eq_refl) as [Hparsed _].
  split; [reflexivity|].
  split; [exact Hparsed|].
  split; [rewrite Hparsed |]; reflexivity.
Defined.

Lemma validate_url_invalid_path_witness :
  validate_url UrlParse.urlparse "tiktok.com" =
    (None, "Invalid TikTok URL. Please provide a profile/channel URL.") /\
  validate_url UrlParse.urlparse "https://www.instagram.com/?hl=en" =
    (None, "Invalid Instagram URL. Please provide a profile/channel URL.").
Proof.
  split.
  - apply (validate_url_invalid_path UrlParse.urlparse "tiktok.com"
             (mkParse "tiktok.com" "") "TikTok");
      [reflexivity | reflexivity | left; reflexivity].
  - apply (validate_url_invalid_path UrlParse.urlparse
             "https://www.instagram.com/?hl=en"
             (mkParse "www.instagram.com" "/") "Instagram");
      [reflexivity | reflexivity | right; reflexivity].
Defined.

Lemma validate_url_host_case_insensitive_witness :
  snd (validate_url UrlParse.urlparse "https://instagram.com/jane") =
  snd (validate_url UrlParse.urlparse "https://INSTAGRAM.COM/jane") /\
  validate_url UrlParse.urlparse "https://INSTAGRAM.COM/jane" =
    (Some "https://INSTAGRAM.COM/jane", "Instagram").
Proof.
  destruct (validate_url_host_case_insensitive UrlParse.urlparse
              "https://INSTAGRAM.COM/jane" (mkParse "INSTAGRAM.COM" "/jane")
              eq_refl) as [Hsame Hdom].
  split.
  - apply (Hsame "https://instagram.com/jane" (mkParse "instagram.com" "/jane"));
      reflexivity.
  - destruct (Hdom "instagram.com" "Instagram") as (_ & _ & Hv).
    + simpl. auto.
    + reflexivity.
    + apply Hv; discriminate.
Defined.

(** ** The duplicate checker *)

Lemma row_matches_iff (row : list string) (url : string) :
  (1 <? length row)%nat && String.eqb (nth 1 row "") url = true <->
  nth_error row 1 = Some url.
Proof.
  destruct row as [|a [|b row]]; simpl.
  - split; discriminate.
  - split; discriminate.
  - rewrite String.eqb_eq. split; [now intros -> | now intros [= ->]].
Qed.

Lemma scan_rows_true_iff (rows : list (list string)) (url : string) :
  scan_rows rows url = true <->
  exists row, In row rows /\ nth_error row 1 = Some url.
Proof.
  induction rows as [|row rows IH]; simpl.
  - split; [discriminate | intros (? & [] & _)].
  - destruct ((1 <? length row)%nat && String.eqb (nth 1 row "") url) eqn:E.
    + split; [|reflexivity]. intros _. exists row. split; [now left|].
      now apply row_matches_iff.
    + rewrite IH. split.
      * intros (r & Hin & Hr). exists r; auto.
      * intros (r & [<- | Hin] & Hr).
        -- apply row_matches_iff in Hr. congruence.
        -- exists r; auto.
Qed.

Lemma skip_header_tl (values : list (list string)) :
  skip_header values = tl values.
Proof.
  destruct values as [|h [|r values]]; reflexivity.
Qed.

Lemma In_tl_iff {A} (l : list A) (x : A) :
  In x (tl l) <-> exists i, 1 <= i /\ nth_error l i = Some x.
Proof.
  destruct l as [|h l]; simpl.
  - split; [contradiction|]. intros (i & _ & H). now destruct i.
  - split.
    + intros Hin. apply In_nth_error in Hin as [n Hn].
      exists (S n). split; [lia | exact Hn].
    + intros (i & Hi & H). destruct i as [|n]; [lia|].
      simpl in H. eapply nth_error_In; eassumption.
Qed.

(** C1: when the read of the queue succeeds, the checker returns true
    exactly when some row other than row 0 has the input string in
    column B; on the queue made of the header and one row for
    [https://instagram.com/foo], it returns true for that URL and false
    for [https://instagram.com/bar]. *)
Theorem check_duplicate_url_exact :
  forall (url : string) (w w' : World) (values : list (list string)),
    values_get_all w = (Ok values, w') ->
    exists b,
      check_duplicate_url url w = (Ok b, w') /\
      (b = true <->
       exists i row,
         1 <= i /\ nth_error values i = Some row /\
         nth_error row 1 = Some url).
Proof.
  intros url w w' values Hget.
  exists (scan_rows (skip_header values) url). split.
  - unfold check_duplicate_url, try_except, bind. now rewrite Hget.
  - rewrite scan_rows_true_iff, skip_header_tl. split.
    + intros (row & Hin & Hrow).
      apply In_tl_iff in Hin as (i & Hi & Hnth). eauto.
    + intros (i & row & Hi & Hnth & Hrow).
      exists row. split; [|exact Hrow]. apply In_tl_iff. eauto.
Qed.

Lemma check_duplicate_url_exact_witness :
  check_duplicate_url "https://instagram.com/foo" queue_foo = (Ok true, queue_foo) /\
  check_duplicate_url "https://instagram.com/bar" queue_foo = (Ok false, queue_foo) /\
  check_duplicate_url "https://Instagram.com/foo" queue_foo = (Ok false, queue_foo) /\
  check_duplicate_url "URL" queue_foo = (Ok false, queue_foo).
Proof.
  destruct (check_duplicate_url_exact "https://instagram.com/foo"
              queue_foo queue_foo (sheet queue_foo) eq_refl)
    as (b & Hrun & Hiff).
  split; [|repeat split].
  rewrite Hrun. f_equal. f_equal. apply Hiff.
  exists 1, (nth 1 (sheet queue_foo) []). repeat split. lia.
Defined.

(** C7: the checker never raises; when the read of the queue raises, it
    logs the error and returns false. *)
Theorem check_duplicate_url_fail_open :
  forall (url : string) (w : World),
    (exists b w', check_duplicate_url url w = (Ok b, w')) /\
    (forall e rest,
        faults w = Some e :: rest ->
        values_get_all w = (Raise e, set_faults rest w) /\
        check_duplicate_url url w =
          (Ok false,
           set_log (log w ++ [(ERROR, "Error checking duplicates: " ++ e)])
             (set_faults rest w))).
Proof.
  intros url w. split.
  - unfold check_duplicate_url, try_except, bind, values_get_all, remote.
    destruct (faults w) as [|[e|] rest]; simpl; do 2 eexists; reflexivity.
  - intros e rest Hf.
    unfold check_duplicate_url, try_except, bind, values_get_all, remote.
    rewrite Hf. simpl. auto.
Qed.

Lemma check_duplicate_url_fail_open_witness :
  let w := set_faults [Some "HttpError 503"] queue_foo in
  check_duplicate_url "https://instagram.com/foo" w =
    (Ok false,
     set_log [(ERROR, "Error checking duplicates: HttpError 503")] queue_foo).
Proof.
  intros w.
  destruct (check_duplicate_url_fail_open "https://instagram.com/foo" w)
    as [_ Hfail].
  destruct (Hfail "HttpError 503" [] eq_refl) as [_ Hrun].
  rewrite Hrun. reflexivity.
Defined.

(** ** The queue appender *)

(** [get_user_name] on the user without a usable name (C4): the lookup
    succeeds, every name field is empty or absent, and the function
    returns [None], the value of [user.get("name")]. *)
Lemma get_user_name_no_usable_field :
  get_user_name (Some "U1") world_nameless = (Ok None, world_nameless) /\
  fst (get_user_name (Some "U1") world_nameless) <> Ok (Some "Unknown User") /\
  sheet (snd (add_to_sheet "https://tiktok.com/@jane" "TikTok" (Some "U1")
                world_nameless)) =
    [["2024-03-07 09:05:00"; "https://tiktok.com/@jane"; "TikTok"; ""; "Pending"]].
Proof.
  repeat split. discriminate.
Qed.

(** The name the lookup prefers: the first of real name, display name
    and username that is not empty. *)
Lemma get_user_name_preference (user_id : option string) (w : World)
    (u : slack_user) (display_name : option string) :
  faults w = [] ->
  directory w user_id = mkInfo true (Some u) ->
  profile u = ProfileDict display_name ->
  get_user_name user_id w =
    (Ok (por (real_name u) (por display_name (name u))), w).
Proof.
  intros Hf Hd Hp.
  unfold get_user_name, get_user_name_try, try_except, bind, users_info, remote.
  rewrite Hf, Hd. cbn [ok user]. unfold por.
  destruct (truthy (real_name u)); [reflexivity|].
  rewrite Hp. cbn [get_display_name]. unfold ret.
  destruct (truthy display_name); reflexivity.
Qed.

(** The lookup never raises, and a lookup that raises or is not [ok]
    gives the placeholder. *)
Lemma get_user_name_placeholder (user_id : option string) (w : World) :
  (exists v w', get_user_name user_id w = (Ok v, w')) /\
  (forall e rest, faults w = Some e :: rest ->
     fst (get_user_name user_id w) = Ok (Some "Unknown User")) /\
  (faults w = [] -> ok (directory w user_id) = false ->
     get_user_name user_id w = (Ok (Some "Unknown User"), w)).
Proof.
  unfold get_user_name, get_user_name_try, try_except, bind, users_info, remote.
  split; [|split].
  - destruct (faults w) as [|[e|] rest]; cbn;
      try (do 2 eexists; reflexivity);
      (match goal with
       | |- context [directory ?w0 user_id] =>
           destruct (directory w0 user_id) as [[] [u|]]
       end; cbn; try (do 2 eexists; reflexivity);
       destruct (truthy (real_name u)); cbn; try (do 2 eexists; reflexivity);
       destruct (profile u) as [| |dn]; cbn; try (do 2 eexists; reflexivity);
       destruct (truthy dn); cbn; do 2 eexists; reflexivity).
  - intros e rest ->. reflexivity.
  - intros -> Hok. cbn. rewrite Hok. reflexivity.
Qed.

Lemma digit_is_digit (n : Z) : is_digit (digit n) = true.
Proof.
  unfold digit.
  pose proof (Z.mod_pos_bound n 10 eq_refl) as Hb.
  assert (Hk : Z.to_nat (n mod 10) < 10) by lia.
  destruct (Z.to_nat (n mod 10)) as [|k]; [reflexivity|].
  do 9 (destruct k as [|k]; [reflexivity|]).
  lia.
Qed.

Lemma strftime_format (d : datetime) : timestamp_format (strftime d) = true.
Proof.
  unfold strftime, pad4, pad2, timestamp_format.
  cbn -[digit is_digit].
  now rewrite !digit_is_digit.
Qed.

Lemma digit_value_digit (n : Z) : digit_value (digit n) = (n mod 10)%Z.
Proof.
  unfold digit_value, digit.
  pose proof (Z.mod_pos_bound n 10 eq_refl) as Hb.
  rewrite nat_ascii_embedding by lia. lia.
Qed.

Lemma read_strftime (d : datetime) :
  valid_datetime d -> read_timestamp (strftime d) = Some d.
Proof.
  destruct d as [y m dd h mi s]. unfold valid_datetime. cbn [year month day hour minute second].
  intros (Hy & Hm & Hd & Hh & Hmi & Hs).
  unfold strftime, pad4, pad2, read_timestamp.
  cbn -[digit digit_value Z.mul Z.add Z.div].
  rewrite !digit_value_digit.
  f_equal. f_equal; Z.to_euclidean_division_equations; lia.
Qed.

(** The lookup leaves the queue and the clock as they are. *)
Lemma get_user_name_frame (user_id : option string) (w : World) :
  exists v w',
    get_user_name user_id w = (Ok v, w') /\
    sheet w' = sheet w /\ now w' = now w.
Proof.
  unfold get_user_name, get_user_name_try, try_except, bind, users_info, remote.
  destruct (faults w) as [|[e|] rest]; cbn; try (now finish_run);
    (match goal with
     | |- context [directory ?w0 user_id] =>
         destruct (directory w0 user_id) as [[] [u|]]
     end; cbn; try (now finish_run);
     destruct (truthy (real_name u)); cbn; try (now finish_run);
     destruct (profile u) as [| |dn]; cbn; try (now finish_run);
     destruct (truthy dn); cbn; now finish_run).
Qed.

(** C5: the appender never raises; when it returns false the queue is
    unchanged, and when it returns true the queue has gained, at its end,
    the one row timestamp, url, platform, requester, ["Pending"], whose
    timestamp is the clock's time in the form [YYYY-MM-DD HH:MM:SS] and
    whose requester is the name the lookup returned. *)
Theorem add_to_sheet_row :
  forall (url platform : string) (user_id : option string) (w : World),
    valid_datetime (now w) ->
    exists b w',
      add_to_sheet url platform user_id w = (Ok b, w') /\
      (b = false -> sheet w' = sheet w) /\
      (b = true ->
       exists timestamp user_name,
         fst (get_user_name user_id w) = Ok user_name /\
         row_data timestamp url platform user_name =
           [Some timestamp; Some url; Some platform; user_name; Some "Pending"] /\
         sheet w' =
           (sheet w ++
            [[timestamp; url; platform; cell_text user_name; "Pending"]])%list /\
         timestamp_format timestamp = true /\
         read_timestamp timestamp = Some (now w)).
Proof.
  intros url platform user_id w Hvalid.
  destruct (get_user_name_frame user_id w) as (v & w1 & Hname & Hsheet & Hnow).
  unfold add_to_sheet, try_except, bind, datetime_now.
  rewrite Hname.
  unfold values_append, remote.
  destruct (faults w1) as [|[e|] rest]; cbn.
  - do 2 eexists. split; [reflexivity|]. split; [discriminate|].
    intros _. exists (strftime (now w)), v. rewrite Hsheet.
    repeat split; [apply strftime_format | now apply read_strftime].
  - do 2 eexists. split; [reflexivity|]. split; [intros _; exact Hsheet|].
    discriminate.
  - do 2 eexists. split; [reflexivity|]. split; [discriminate|].
    intros _. exists (strftime (now w)), v. rewrite Hsheet.
    repeat split; [apply strftime_format | now apply read_strftime].
Qed.

Lemma add_to_sheet_row_witness :
  valid_datetime (now world0) /\
  add_to_sheet "https://tiktok.com/@jane" "TikTok" (Some "U1") world0 =
    (Ok true,
     set_sheet
       [["2024-03-07 09:05:00"; "https://tiktok.com/@jane"; "TikTok";
         "Jane Doe"; "Pending"]] world0) /\
  exists b w',
    add_to_sheet "https://tiktok.com/@jane" "TikTok" (Some "U1") world0 =
      (Ok b, w') /\
    (b = true -> exists timestamp, read_timestamp timestamp = Some (now world0)).
Proof.
  assert (Hvalid : valid_datetime (now world0))
    by (unfold valid_datetime; simpl; lia).
  split; [exact Hvalid|]. split; [reflexivity|].
  destruct (add_to_sheet_row "https://tiktok.com/@jane" "TikTok" (Some "U1")
              world0 Hvalid) as (b & w' & Hrun & _ & Hrow).
  exists b, w'. split; [exact Hrun|].
  intros Hb.
  destruct (Hrow Hb) as (timestamp & _ & _ & _ & _ & _ & Hread).
  exists timestamp. exact Hread.
Defined.

(** ** The header initializer *)

Lemma setup_sheet_headers_once (w : World) :
  fst (setup_sheet_headers w) = Ok tt /\
  (sheet (snd (setup_sheet_headers w)) = sheet w \/
   row1_blank (sheet w) = true /\
   sheet (snd (setup_sheet_headers w)) = headers :: tl (sheet w)).
Proof.
  unfold setup_sheet_headers, try_except, bind, values_get_row1,
    values_update_row1, remote.
  destruct (faults w) as [|[e|] [|[e'|] rest]] eqn:Ef;
    (destruct (sheet w) as [|row rows] eqn:Es;
     [|destruct (row_blank row) eqn:Eb]);
    repeat (progress (simpl; rewrite ?Ef, ?Es, ?Eb)); auto.
Qed.

Lemma setup_sheet_headers_no_fault (w : World) :
  faults w = [] ->
  faults (snd (setup_sheet_headers w)) = [] /\
  sheet (snd (setup_sheet_headers w)) =
    if row1_blank (sheet w) then headers :: tl (sheet w) else sheet w.
Proof.
  intros Hf.
  unfold setup_sheet_headers, try_except, bind, values_get_row1,
    values_update_row1, remote.
  rewrite Hf.
  (destruct (sheet w) as [|row rows] eqn:Es;
   [|destruct (row_blank row) eqn:Eb]);
    repeat (progress (simpl; rewrite ?Hf, ?Es, ?Eb)); auto.
Qed.

Lemma setup_sheet_headers_keeps (w : World) :
  row1_blank (sheet w) = false ->
  sheet (snd (setup_sheet_headers w)) = sheet w.
Proof.
  intros Hb.
  destruct (setup_sheet_headers_once w) as [_ [H | [H _]]]; [exact H|].
  congruence.
Qed.

(** C8: the initializer never raises and leaves a row 1 that has content
    as it is, whatever the content.  Over two calls in a row it writes the
    header at most once, into row 1, and never touches the rows below: the
    second call changes nothing that the first one wrote, and when no
    remote call fails the sheet after two calls is the sheet after one. *)
Theorem setup_sheet_headers_idempotent :
  forall (w : World),
    let w1 := snd (setup_sheet_headers w) in
    let w2 := snd (setup_sheet_headers w1) in
    (fst (setup_sheet_headers w) = Ok tt /\
     fst (setup_sheet_headers w1) = Ok tt) /\
    (row1_blank (sheet w) = false ->
     sheet w1 = sheet w /\ sheet w2 = sheet w) /\
    (sheet w2 = sheet w1 \/
     sheet w1 = sheet w /\ sheet w2 = headers :: tl (sheet w)) /\
    tl (sheet w2) = tl (sheet w) /\
    (faults w = [] -> sheet w2 = sheet w1).
Proof.
  intros w w1 w2.
  destruct (setup_sheet_headers_once w) as [Hok1 Hw1].
  destruct (setup_sheet_headers_once w1) as [Hok2 Hw2].
  fold w1 in Hw1. fold w2 in Hw2.
  assert (Hhdr : forall rows, row1_blank (headers :: rows) = false)
    by reflexivity.
  split; [now split|].
  split.
  { intros Hb.
    assert (E1 : sheet w1 = sheet w) by now apply setup_sheet_headers_keeps.
    split; [exact E1|].
    rewrite <- E1. apply setup_sheet_headers_keeps. now rewrite E1. }
  split.
  { destruct Hw2 as [E2 | [Hb2 E2]]; [now left|].
    destruct Hw1 as [E1 | [_ E1]].
    - right. split; [exact E1|]. now rewrite E2, E1.
    - rewrite E1, Hhdr in Hb2. discriminate. }
  split.
  { destruct Hw2 as [E2 | [_ E2]]; rewrite E2;
      destruct Hw1 as [E1 | [_ E1]]; rewrite E1; reflexivity. }
  intros Hf.
  destruct (setup_sheet_headers_no_fault w Hf) as [Hf1 E1].
  destruct (setup_sheet_headers_no_fault w1 Hf1) as [_ E2].
  fold w1 in E1. fold w2 in E2.
  rewrite E2.
  destruct (row1_blank (sheet w1)) eqn:Hb1; [|reflexivity].
  rewrite E1 in Hb1.
  destruct (row1_blank (sheet w)) eqn:Hb; [|congruence].
  rewrite Hhdr in Hb1. discriminate.
Qed.

Lemma setup_sheet_headers_idempotent_witness :
  sheet (snd (setup_sheet_headers world0)) = [headers] /\
  sheet (snd (setup_sheet_headers (snd (setup_sheet_headers world0)))) =
    [headers] /\
  sheet (snd (setup_sheet_headers world_other_header)) =
    sheet world_other_header.
Proof.
  destruct (setup_sheet_headers_idempotent world0)
    as (_ & _ & _ & _ & Hsame).
  destruct (setup_sheet_headers_idempotent world_other_header)
    as (_ & Hkeep & _).
  split; [reflexivity|].
  split; [rewrite (Hsame eq_refl); reflexivity|].
  exact (proj1 (Hkeep eq_refl)).
Defined.

(** ** The mention handler *)

Lemma append_assoc (a b c : string) : (a ++ b) ++ c = a ++ b ++ c.
Proof.
  induction a as [|x a IH]; simpl; [reflexivity | now rewrite IH].
Qed.

Lemma drop_app (p s : string) : drop (String.length p) (p ++ s) = s.
Proof.
  induction p as [|a p IH]; simpl; [now destruct s | exact IH].
Qed.

Lemma url_run_split (s : string) :
  all_url_chars (url_run s) = true /\ exists post, s = url_run s ++ post.
Proof.
  induction s as [|c s [IH1 [post IH2]]]; simpl.
  - split; [reflexivity | now exists ""].
  - destruct (url_char c) eqn:E; simpl.
    + rewrite E, IH1. split; [reflexivity|].
      exists post. now rewrite <- IH2.
    + split; [reflexivity|]. now exists (String c s).
Qed.

Lemma match_with_sound (scheme s m : string) :
  match_with scheme s = Some m ->
  exists run post,
    m = scheme ++ run /\ run <> "" /\ all_url_chars run = true /\
    s = m ++ post.
Proof.
  unfold match_with.
  destruct (startswith s scheme) eqn:Hs; [|discriminate].
  destruct (startswith_inv _ _ Hs) as [rest ->].
  rewrite drop_app.
  destruct (url_run_split rest) as [Hall [post Hpost]].
  destruct (url_run rest) as [|c run] eqn:Er; [discriminate|].
  intros [= <-].
  exists (String c run), post.
  repeat split; [discriminate | exact Hall |].
  rewrite append_assoc. now rewrite <- Hpost.
Qed.

Lemma match_here_sound (s m : string) :
  match_here s = Some m ->
  url_pattern m /\ exists post, s = m ++ post.
Proof.
  unfold match_here.
  destruct (match_with "https://" s) as [m1|] eqn:E1.
  - intros [= <-].
    destruct (match_with_sound _ _ _ E1) as (run & post & Hm & Hne & Hall & Hs).
    split; [exists "https://", run; auto | now exists post].
  - intros E2.
    destruct (match_with_sound _ _ _ E2) as (run & post & Hm & Hne & Hall & Hs).
    split; [exists "http://", run; auto | now exists post].
Qed.







(** * Further properties of the code *)

(** ** The validator: outcomes *)

Lemma platform_name_truthy (p : string) :
  platform_name p -> truthy (Some p) = true.
Proof.
  intros [-> | [-> | ->]]; reflexivity.
Qed.

Lemma has_scheme_nonempty (url : string) :
  startswith_any url ["http://"; "https://"] = true ->
  exists c rest, url = String c rest.
Proof.
  destruct url as [|c rest]; [discriminate | eauto].
Qed.

Section ValidatorOutcomes.

Variable urlparse : string -> exc ParseResult.

(** X1: the Validator has four outcomes and no other: the format error
    that carries the parser's message, the unsupported-platform message,
    the invalid-path message for one of the three platform names, or the
    scheme-prefixed input with one of the three platform names; a URL it
    returns always starts with [http://] or [https://]. *)
Theorem validate_url_outcomes :
  forall (url : string),
    (exists e, urlparse (add_scheme url) = Raise e /\
               validate_url urlparse url = (None, "Invalid URL format: " ++ e)) \/
    validate_url urlparse url = (None, msg_unsupported) \/
    (exists p, platform_name p /\
               validate_url urlparse url = (None, msg_invalid_path p)) \/
    (exists p, platform_name p /\
               validate_url urlparse url = (Some (add_scheme url), p) /\
               startswith_any (add_scheme url) ["http://"; "https://"] = true).
Proof.
  intros url. unfold validate_url, validate_parsed.
  destruct (urlparse (add_scheme url)) as [parsed|e] eqn:Hparse.
  - right. cbv zeta.
    destruct (classify SUPPORTED_PLATFORMS (lower (netloc parsed)))
      as [p|] eqn:Hc; [|now left].
    pose proof (supported_platform_names _ _ Hc) as Hp.
    rewrite (platform_name_truthy p Hp). cbn [negb of_opt].
    right.
    destruct (negb (truthy (Some (path parsed))) || String.eqb (path parsed) "/").
    + left. exists p. split; [exact Hp | reflexivity].
    + right. exists p. split; [exact Hp|]. split; [reflexivity|].
      apply add_scheme_has_scheme.
  - left. exists e. split; reflexivity.
Qed.


(** X3: the Validator accepts its own output: a URL it has returned is
    returned again, unchanged and with the same platform. *)
Theorem validate_url_idempotent :
  forall (url out platform : string),
    validate_url urlparse url = (Some out, platform) ->
    validate_url urlparse out = (Some out, platform).
Proof.
  intros url out platform H.
  assert (E : out = add_scheme url).
  { unfold validate_url in H. now apply validate_parsed_success in H. }
  subst out. rewrite validate_url_add_scheme. exact H.
Qed.

End ValidatorOutcomes.


Lemma validate_url_idempotent_witness :
  validate_url UrlParse.urlparse "https://youtu.be/abc" =
    (Some "https://youtu.be/abc", "YouTube").
Proof.
  apply (validate_url_idempotent UrlParse.urlparse "youtu.be/abc"
           "https://youtu.be/abc" "YouTube").
  reflexivity.
Defined.

(** ** The duplicate checker: what it reads and what it leaves *)

Lemma check_duplicate_url_frame (url : string) (w : World) :
  exists b w',
    check_duplicate_url url w = (Ok b, w') /\
    sheet w' = sheet w /\ said w' = said w /\
    now w' = now w /\ directory w' = directory w /\
    faults w' = tl (faults w).
Proof.
  unfold check_duplicate_url, try_except, bind, values_get_all, remote.
  destruct (faults w) as [|[e|] rest] eqn:Ef; cbn; rewrite ?Ef; now finish_run.
Qed.

(** X4: the checker makes one remote call and writes nothing: it always
    returns a value, the queue and the messages sent are as before, one
    entry of the fault script is consumed, and the log gains an entry only
    when the read raised. *)
Theorem check_duplicate_url_read_only :
  forall (url : string) (w : World),
    exists b w',
      check_duplicate_url url w = (Ok b, w') /\
      sheet w' = sheet w /\ said w' = said w /\
      faults w' = tl (faults w) /\
      (log w' = log w \/
       exists e, hd None (faults w) = Some e /\ b = false /\
                 log w' = (log w ++ [(ERROR, ("Error checking duplicates: " ++ e)%string)])%list).
Proof.
  intros url w.
  unfold check_duplicate_url, try_except, bind, values_get_all, remote.
  destruct (faults w) as [|[e|] rest] eqn:Ef; cbn; rewrite ?Ef;
    do 2 eexists; (split; [reflexivity|]); cbn; rewrite ?Ef;
    repeat split; auto.
  right. exists e. auto.
Qed.

(** X5: a queue of at most one row never holds a duplicate: row 0 is
    skipped whether or not it is a header, so a URL that sits in row 0 is
    not found. *)
Theorem check_duplicate_url_row0_skipped :
  forall (url : string) (w : World),
    length (sheet w) <= 1 ->
    fst (check_duplicate_url url w) = Ok false.
Proof.
  intros url w Hlen.
  unfold check_duplicate_url, try_except, bind, values_get_all, remote.
  assert (Hskip : skip_header (sheet w) = []).
  { rewrite skip_header_tl. destruct (sheet w) as [|r [|r' rows]];
      [reflexivity | reflexivity | simpl in Hlen; lia]. }
  destruct (faults w) as [|[e|] rest]; cbn; rewrite ?Hskip; reflexivity.
Qed.

Lemma check_duplicate_url_row0_skipped_witness :
  let w := set_sheet
             [["2024-03-07 09:05:00"; "https://tiktok.com/@jane"; "TikTok";
               "Jane Doe"; "Pending"]] world0 in
  nth_error (sheet w) 0 =
    Some ["2024-03-07 09:05:00"; "https://tiktok.com/@jane"; "TikTok";
          "Jane Doe"; "Pending"] /\
  fst (check_duplicate_url "https://tiktok.com/@jane" w) = Ok false.
Proof.
  intros w. split; [reflexivity|].
  apply (check_duplicate_url_row0_skipped "https://tiktok.com/@jane" w).
  simpl. lia.
Defined.

(** ** The queue appender: the lookup and the two remote calls *)

(** The lookup makes one remote call and leaves the queue, the clock, the
    directory and the messages sent as they are. *)
Lemma get_user_name_one_call (user_id : option string) (w : World) :
  exists v w',
    get_user_name user_id w = (Ok v, w') /\
    sheet w' = sheet w /\ said w' = said w /\
    now w' = now w /\ directory w' = directory w /\
    faults w' = tl (faults w) /\
    (forall e rest, faults w = Some e :: rest -> v = Some "Unknown User").
Proof.
  unfold get_user_name, get_user_name_try, try_except, bind, users_info, remote.
  destruct (faults w) as [|[e|] rest] eqn:Ef; cbn; rewrite ?Ef.
  2: { finish_run. }
  all: match goal with
       | |- context [directory ?w0 ?uid] =>
           destruct (directory w0 uid) as [[] [u|]]
       end; cbn; rewrite ?Ef.
  all: try (solve [close_run Ef]).
  all: destruct (truthy (real_name u)); cbn; rewrite ?Ef;
       try (solve [close_run Ef]).
  all: destruct (profile u) as [| |dn]; cbn; rewrite ?Ef;
       try (solve [close_run Ef]).
  all: destruct (truthy dn); cbn; rewrite ?Ef; solve [close_run Ef].
Qed.

(** What [add_to_sheet] does, in terms of the two entries of the fault
    script that its remote calls consume. *)
Lemma add_to_sheet_calls (url platform : string) (user_id : option string)
    (w : World) :
  exists b w',
    add_to_sheet url platform user_id w = (Ok b, w') /\
    said w' = said w /\ now w' = now w /\ directory w' = directory w /\
    faults w' = tl (tl (faults w)) /\
    (b = false <-> exists e, hd None (tl (faults w)) = Some e) /\
    (b = false -> sheet w' = sheet w) /\
    (b = true ->
     exists user_name,
       fst (get_user_name user_id w) = Ok user_name /\
       sheet w' =
         (sheet w ++
          [[strftime (now w); url; platform; cell_text user_name; "Pending"]])%list).
Proof.
  destruct (get_user_name_one_call user_id w)
    as (v & w1 & Hname & Hsheet & Hsaid & Hnow & Hdir & Hf & _).
  unfold add_to_sheet, try_except, bind, datetime_now.
  rewrite Hname. unfold values_append, remote. cbn -[strftime].
  rewrite Hf.
  destruct (tl (faults w)) as [|[e|] rest] eqn:Et; cbn -[strftime];
    rewrite ?Hf, ?Et.
  - exists true. eexists. split; [reflexivity|]. cbn -[strftime].
    rewrite ?Hf, ?Et, ?Hsheet.
    repeat split; auto; try discriminate.
    + intros [e He]. discriminate.
    + intros _. exists v. split; reflexivity.
  - exists false. eexists. split; [reflexivity|]. cbn -[strftime].
    repeat split; auto; try discriminate. now exists e.
  - exists true. eexists. split; [reflexivity|]. cbn -[strftime].
    rewrite Hsheet.
    repeat split; auto; try discriminate.
    + intros [e He]. discriminate.
    + intros _. exists v. split; reflexivity.
Qed.

(** X6: when the lookup succeeds and returns a user object, the name is
    the first non-empty one of real name, display name and username; a
    profile that is absent counts as one without a display name, and
    nothing is logged. *)
Theorem get_user_name_first_usable :
  forall (user_id : option string) (w : World) (u : slack_user),
    hd None (faults w) = None ->
    directory w user_id = mkInfo true (Some u) ->
    truthy (real_name u) = true \/ profile u <> ProfileNull ->
    fst (get_user_name user_id w) =
      Ok (por (real_name u)
            (por match profile u with
                 | ProfileDict display_name => display_name
                 | _ => None
                 end (name u))) /\
    log (snd (get_user_name user_id w)) = log w.
Proof.
  intros user_id w u Hf Hd Hp.
  unfold get_user_name, get_user_name_try, try_except, bind, users_info, remote.
  assert (Hd' : forall rest, directory (set_faults rest w) user_id =
                             mkInfo true (Some u)) by (intros; exact Hd).
  unfold por.
  destruct (faults w) as [|[e|] rest]; [|discriminate|];
    cbn -[truthy]; rewrite ?Hd, ?Hd'; cbn -[truthy];
    (destruct (truthy (real_name u)) eqn:Hr; [split; reflexivity|]);
    (destruct Hp as [Hp | Hp]; [discriminate|]);
    (destruct (profile u) as [| |dn]; [|congruence|]); cbn -[truthy];
    try (split; reflexivity);
    destruct (truthy dn); split; reflexivity.
Qed.

Lemma get_user_name_first_usable_witness :
  fst (get_user_name (Some "U1") world_username_only) = Ok (Some "jane").
Proof.
  destruct (get_user_name_first_usable (Some "U1") world_username_only
              (mkUser None (ProfileDict (Some "")) (Some "jane"))
              eq_refl eq_refl) as [Hname _].
  - right. discriminate.
  - exact Hname.
Defined.

(** X7: the lookup never raises, and it gives ["Unknown User"] when the
    call raises, when the response is not [ok], when the response has no
    user object, and when the real name is empty and the profile is null;
    the three cases that go through an exception log one error. *)
Theorem get_user_name_fallback :
  forall (user_id : option string) (w : World),
    (exists v w', get_user_name user_id w = (Ok v, w')) /\
    (forall e rest,
        faults w = Some e :: rest ->
        get_user_name user_id w =
          (Ok (Some "Unknown User"),
           set_log (log w ++ [(ERROR, "Error fetching user info: " ++ e)])
             (set_faults rest w))) /\
    (hd None (faults w) = None ->
     (ok (directory w user_id) = false ->
      fst (get_user_name user_id w) = Ok (Some "Unknown User") /\
      log (snd (get_user_name user_id w)) = log w) /\
     (directory w user_id = mkInfo true None ->
      fst (get_user_name user_id w) = Ok (Some "Unknown User") /\
      length (log (snd (get_user_name user_id w))) = S (length (log w))) /\
     (forall u,
         directory w user_id = mkInfo true (Some u) ->
         truthy (real_name u) = false -> profile u = ProfileNull ->
         fst (get_user_name user_id w) = Ok (Some "Unknown User") /\
         length (log (snd (get_user_name user_id w))) = S (length (log w)))).
Proof.
  intros user_id w. split; [|split].
  - destruct (get_user_name_one_call user_id w) as (v & w' & Hrun & _).
    now exists v, w'.
  - intros e rest Hf.
    unfold get_user_name, get_user_name_try, try_except, bind, users_info, remote.
    rewrite Hf. reflexivity.
  - intros Hf.
    unfold get_user_name, get_user_name_try, try_except, bind, users_info, remote.
    destruct (faults w) as [|[e|] rest]; [|discriminate|];
      (split; [|split]).
    all: try (intros Hok; cbn; rewrite Hok; split; reflexivity).
    all: try (intros Hd; cbn; rewrite Hd; cbn; rewrite length_app; simpl;
              split; [reflexivity | lia]).
    all: intros u Hd Hr Hp; cbn -[truthy]; rewrite Hd; cbn -[truthy];
         rewrite Hr, Hp; cbn; rewrite length_app; simpl;
         split; [reflexivity | lia].
Qed.

Lemma get_user_name_fallback_witness :
  get_user_name (Some "U1") (set_faults [Some "timeout"] world0) =
    (Ok (Some "Unknown User"),
     set_log [(ERROR, "Error fetching user info: timeout")] world0) /\
  fst (get_user_name (Some "U1") world_null_profile) = Ok (Some "Unknown User").
Proof.
  destruct (get_user_name_fallback (Some "U1")
              (set_faults [Some "timeout"] world0)) as (_ & Hraise & _).
  destruct (get_user_name_fallback (Some "U1") world_null_profile)
    as (_ & _ & Hrest).
  destruct (Hrest eq_refl) as (_ & _ & Hnull).
  split.
  - rewrite (Hraise "timeout" [] eq_refl). reflexivity.
  - exact (proj1 (Hnull (mkUser (Some "") ProfileNull (Some "jane"))
                    eq_refl eq_refl eq_refl)).
Defined.

(** X8: [add_to_sheet] returns false exactly when its append call, the
    second remote call it makes, raises; a lookup that raises does not make
    it fail.  When it returns false the queue, the messages sent and the
    directory are as before. *)
Theorem add_to_sheet_false_iff :
  forall (url platform : string) (user_id : option string) (w : World),
    exists b w',
      add_to_sheet url platform user_id w = (Ok b, w') /\
      (b = false <-> exists e, hd None (tl (faults w)) = Some e) /\
      (b = false -> sheet w' = sheet w) /\
      said w' = said w /\ faults w' = tl (tl (faults w)).
Proof.
  intros url platform user_id w.
  destruct (add_to_sheet_calls url platform user_id w)
    as (b & w' & Hrun & Hsaid & _ & _ & Hf & Hiff & Hkeep & _).
  exists b, w'. auto.
Qed.

(** X9: when the Slack lookup raises and the append goes through, the row
    is written all the same, with the requester ["Unknown User"]. *)
Theorem add_to_sheet_unknown_requester :
  forall (url platform : string) (user_id : option string) (w : World)
         (e : string) (rest : list (option string)),
    faults w = Some e :: rest ->
    hd None rest = None ->
    exists w',
      add_to_sheet url platform user_id w = (Ok true, w') /\
      sheet w' =
        (sheet w ++
         [[strftime (now w); url; platform; "Unknown User"; "Pending"]])%list.
Proof.
  intros url platform user_id w e rest Hf Hrest.
  destruct (get_user_name_one_call user_id w)
    as (v & w1 & Hname & _ & _ & _ & _ & _ & Hunknown).
  destruct (add_to_sheet_calls url platform user_id w)
    as (b & w' & Hrun & _ & _ & _ & _ & Hiff & _ & Hrow).
  assert (Hb : b = true).
  { destruct b; [reflexivity|].
    destruct (proj1 Hiff eq_refl) as [e' He'].
    rewrite Hf in He'. simpl in He'. congruence. }
  subst b. exists w'. split; [exact Hrun|].
  destruct (Hrow eq_refl) as (user_name & Hv & Hsheet).
  rewrite Hname in Hv. simpl in Hv. injection Hv as <-.
  rewrite (Hunknown e rest Hf) in Hsheet. exact Hsheet.
Qed.

Lemma add_to_sheet_unknown_requester_witness :
  exists w',
    add_to_sheet "https://youtu.be/abc" "YouTube" (Some "U1")
      (set_faults [Some "ratelimited"] queue_foo) = (Ok true, w') /\
    sheet w' =
      (sheet queue_foo ++
       [["2024-03-07 09:05:00"; "https://youtu.be/abc"; "YouTube";
         "Unknown User"; "Pending"]])%list.
Proof.
  exact (add_to_sheet_unknown_requester "https://youtu.be/abc" "YouTube"
           (Some "U1") (set_faults [Some "ratelimited"] queue_foo)
           "ratelimited" [] eq_refl eq_refl).
Defined.

(** ** Appending and then checking *)

Lemma check_duplicate_url_value (url : string) (w : World) :
  hd None (faults w) = None ->
  fst (check_duplicate_url url w) = Ok (scan_rows (skip_header (sheet w)) url).
Proof.
  intros Hf.
  unfold check_duplicate_url, try_except, bind, values_get_all, remote.
  destruct (faults w) as [|[e|] rest]; [reflexivity | discriminate | reflexivity].
Qed.

Lemma add_to_sheet_true_sheet (url platform : string)
    (user_id : option string) (w w1 : World) :
  add_to_sheet url platform user_id w = (Ok true, w1) ->
  exists timestamp requester,
    sheet w1 =
      (sheet w ++ [[timestamp; url; platform; requester; "Pending"]])%list.
Proof.
  intros Hadd.
  destruct (add_to_sheet_calls url platform user_id w)
    as (b & w' & Hrun & _ & _ & _ & _ & _ & _ & Hrow).
  rewrite Hadd in Hrun. injection Hrun as <- <-.
  destruct (Hrow eq_refl) as (user_name & _ & Hsheet). eauto.
Qed.

Lemma scan_rows_appended (rows : list (list string))
    (timestamp url platform requester : string) :
  rows <> [] ->
  scan_rows
    (skip_header (rows ++ [[timestamp; url; platform; requester; "Pending"]]))
    url = true.
Proof.
  intros Hne. apply scan_rows_true_iff. rewrite skip_header_tl.
  exists [timestamp; url; platform; requester; "Pending"].
  split; [|reflexivity].
  destruct rows as [|row0 rows]; [congruence|].
  simpl. apply in_or_app. right. now left.
Qed.

(** X10: a URL that [add_to_sheet] has appended to a queue that already
    had a row is found by the next duplicate check whose read succeeds. *)
Theorem add_then_check_finds :
  forall (url platform : string) (user_id : option string) (w w1 : World),
    sheet w <> [] ->
    add_to_sheet url platform user_id w = (Ok true, w1) ->
    hd None (faults w1) = None ->
    fst (check_duplicate_url url w1) = Ok true.
Proof.
  intros url platform user_id w w1 Hne Hadd Hf.
  destruct (add_to_sheet_true_sheet _ _ _ _ _ Hadd) as (ts & req & Hsheet).
  rewrite (check_duplicate_url_value url w1 Hf), Hsheet.
  f_equal. now apply scan_rows_appended.
Qed.

Lemma add_then_check_finds_witness :
  exists w1,
    add_to_sheet "https://youtu.be/abc" "YouTube" (Some "U1") queue_foo =
      (Ok true, w1) /\
    fst (check_duplicate_url "https://youtu.be/abc" w1) = Ok true.
Proof.
  eexists. split; [reflexivity|].
  apply (add_then_check_finds "https://youtu.be/abc" "YouTube" (Some "U1")
           queue_foo); [discriminate | reflexivity | reflexivity].
Defined.

(** X11: on a queue without any row, the row that [add_to_sheet] appends
    becomes row 0, which the duplicate check skips: the URL just added is
    not found. *)
Theorem add_to_empty_queue_not_found :
  forall (url platform : string) (user_id : option string) (w w1 : World),
    sheet w = [] ->
    add_to_sheet url platform user_id w = (Ok true, w1) ->
    length (sheet w1) = 1 /\
    fst (check_duplicate_url url w1) = Ok false.
Proof.
  intros url platform user_id w w1 Hnil Hadd.
  destruct (add_to_sheet_true_sheet _ _ _ _ _ Hadd) as (ts & req & Hsheet).
  rewrite Hnil in Hsheet. simpl in Hsheet.
  unfold check_duplicate_url, try_except, bind, values_get_all, remote.
  rewrite Hsheet.
  split; [reflexivity|].
  destruct (faults w1) as [|[e|] rest]; cbn; rewrite ?Hsheet; reflexivity.
Qed.

Lemma add_to_empty_queue_not_found_witness :
  exists w1,
    add_to_sheet "https://youtu.be/abc" "YouTube" (Some "U1") world0 =
      (Ok true, w1) /\
    fst (check_duplicate_url "https://youtu.be/abc" w1) = Ok false.
Proof.
  eexists. split; [reflexivity|].
  apply (add_to_empty_queue_not_found "https://youtu.be/abc" "YouTube"
           (Some "U1") world0); reflexivity.
Defined.

(** ** The timestamp *)

(** X12: the timestamp determines the time: two valid clock readings with
    the same timestamp are the same reading. *)
Theorem strftime_injective :
  forall (d1 d2 : datetime),
    valid_datetime d1 -> valid_datetime d2 ->
    strftime d1 = strftime d2 -> d1 = d2.
Proof.
  intros d1 d2 H1 H2 E.
  pose proof (read_strftime d1 H1) as R1.
  pose proof (read_strftime d2 H2) as R2.
  rewrite E in R1. congruence.
Qed.

Lemma strftime_injective_witness :
  strftime (mkDate 2024 3 7 9 5 0) <> strftime (mkDate 2024 3 7 9 5 1).
Proof.
  intros E.
  apply strftime_injective in E;
    [discriminate E | unfold valid_datetime; simpl; lia
    | unfold valid_datetime; simpl; lia].
Defined.

(** ** The header initializer: writing and failing *)

(** X13: when row 1 is blank and no remote call fails, the initializer
    writes the five column names into row 1, leaves the rows below as they
    are, and logs that the headers were created. *)
Theorem setup_sheet_headers_writes :
  forall (w : World),
    faults w = [] ->
    row1_blank (sheet w) = true ->
    setup_sheet_headers w =
      (Ok tt,
       set_log (log w ++ [(INFO, "Sheet headers created")])
         (set_sheet
            (["Timestamp"; "URL"; "Platform"; "Requester"; "Status"]
               :: tl (sheet w)) w)).
Proof.
  intros w Hf Hb.
  unfold setup_sheet_headers, try_except, bind, values_get_row1,
    values_update_row1, remote, logger_info.
  rewrite Hf.
  destruct (sheet w) as [|row rows] eqn:Es; simpl in Hb;
    repeat (progress (simpl; rewrite ?Hb, ?Es, ?Hf)); reflexivity.
Qed.

Lemma setup_sheet_headers_writes_witness :
  sheet (snd (setup_sheet_headers
                (set_sheet [[]; ["2024-03-07 09:05:00"; "https://youtu.be/abc"]]
                   world0))) =
    [["Timestamp"; "URL"; "Platform"; "Requester"; "Status"];
     ["2024-03-07 09:05:00"; "https://youtu.be/abc"]].
Proof.
  rewrite (setup_sheet_headers_writes
             (set_sheet [[]; ["2024-03-07 09:05:00"; "https://youtu.be/abc"]]
                world0) eq_refl eq_refl).
  reflexivity.
Defined.

(** X14: when the read of row 1 raises, or row 1 is blank and the write
    raises, the initializer logs the error, writes nothing and returns
    normally. *)
Theorem setup_sheet_headers_failure :
  forall (w : World) (e : string) (rest : list (option string)),
    (faults w = Some e :: rest ->
     setup_sheet_headers w =
       (Ok tt,
        set_log (log w ++ [(ERROR, "Error setting up headers: " ++ e)])
          (set_faults rest w))) /\
    (faults w = None :: Some e :: rest ->
     row1_blank (sheet w) = true ->
     setup_sheet_headers w =
       (Ok tt,
        set_log (log w ++ [(ERROR, "Error setting up headers: " ++ e)])
          (set_faults rest w))).
Proof.
  intros w e rest.
  unfold setup_sheet_headers, try_except, bind, values_get_row1,
    values_update_row1, remote, logger_error.
  split.
  - intros Hf. rewrite Hf. reflexivity.
  - intros Hf Hb. rewrite Hf.
    destruct (sheet w) as [|row rows] eqn:Es; simpl in Hb;
      repeat (progress (simpl; rewrite ?Hb, ?Es)); reflexivity.
Qed.

Lemma setup_sheet_headers_failure_witness :
  sheet (snd (setup_sheet_headers (set_faults [Some "HttpError 403"] world0))) = [] /\
  sheet (snd (setup_sheet_headers
                (set_faults [None; Some "HttpError 403"] world0))) = [].
Proof.
  destruct (setup_sheet_headers_failure
              (set_faults [Some "HttpError 403"] world0) "HttpError 403" [])
    as [Hread _].
  destruct (setup_sheet_headers_failure
              (set_faults [None; Some "HttpError 403"] world0) "HttpError 403" [])
    as [_ Hwrite].
  rewrite (Hread eq_refl), (Hwrite eq_refl eq_refl). split; reflexivity.
Defined.

(** X15: start-up followed by a submission: from any queue, when no
    remote call fails, after the initializer has run a URL that is appended
    is found by the duplicate check that follows. *)
Theorem setup_add_check :
  forall (url platform : string) (user_id : option string) (w : World),
    faults w = [] ->
    exists w1 w2,
      setup_sheet_headers w = (Ok tt, w1) /\
      add_to_sheet url platform user_id w1 = (Ok true, w2) /\
      fst (check_duplicate_url url w2) = Ok true.
Proof.
  intros url platform user_id w Hf.
  destruct (setup_sheet_headers_once w) as [Hok Hsheet].
  destruct (setup_sheet_headers_no_fault w Hf) as [Hf1 Hs1].
  destruct (setup_sheet_headers w) as [r w1] eqn:Hsetup.
  simpl in Hok, Hf1, Hs1. subst r.
  destruct (add_to_sheet_calls url platform user_id w1)
    as (b & w2 & Hadd & _ & _ & _ & Hf2 & Hiff & _ & _).
  assert (Hb : b = true).
  { destruct b; [reflexivity|].
    destruct (proj1 Hiff eq_refl) as [e He]. rewrite Hf1 in He. discriminate. }
  subst b. exists w1, w2. split; [reflexivity|]. split; [exact Hadd|].
  destruct (add_to_sheet_true_sheet _ _ _ _ _ Hadd) as (ts & req & Hs2).
  rewrite check_duplicate_url_value by (rewrite Hf2, Hf1; reflexivity).
  rewrite Hs2. f_equal. apply scan_rows_appended.
  rewrite Hs1. destruct (row1_blank (sheet w)) eqn:Hb; [discriminate|].
  destruct (sheet w); [discriminate Hb | discriminate].
Qed.

Lemma setup_add_check_witness :
  exists w1 w2,
    setup_sheet_headers world0 = (Ok tt, w1) /\
    add_to_sheet "https://youtu.be/abc" "YouTube" (Some "U1") w1 = (Ok true, w2) /\
    fst (check_duplicate_url "https://youtu.be/abc" w2) = Ok true.
Proof.
  exact (setup_add_check "https://youtu.be/abc" "YouTube" (Some "U1") world0
           eq_refl).
Defined.

(** ** The URLs found in a message *)

Lemma findall_from_sound (s : string) :
  forall skip m,
    In m (findall_from skip s) ->
    url_pattern m /\ exists pre post, s = pre ++ m ++ post.
Proof.
  induction s as [|c s IH]; intros skip m Hin; simpl in Hin; [contradiction|].
  assert (Hrec : forall k, In m (findall_from k s) ->
                 url_pattern m /\ exists pre post, String c s = pre ++ m ++ post).
  { intros k Hk. destruct (IH k m Hk) as [Hm (pre & post & E)].
    split; [exact Hm|]. exists (String c pre), post. simpl. now rewrite <- E. }
  destruct skip as [|k]; [|now apply (Hrec k)].
  destruct (match_here (String c s)) as [m0|] eqn:Em; [|now apply (Hrec 0)].
  destruct Hin as [<- | Hin]; [|now apply (Hrec (String.length m0 - 1))].
  destruct (match_here_sound _ _ Em) as [Hm [post E]].
  split; [exact Hm|]. now exists "", post.
Qed.

Lemma nonempty_last (s : string) :
  s <> "" -> exists s' c, s = s' ++ String c "".
Proof.
  induction s as [|a s IH]; [congruence|]. intros _.
  destruct s as [|b s].
  - now exists "", a.
  - destruct IH as (s' & c & E); [discriminate|].
    exists (String a s'), c. simpl. now rewrite <- E.
Qed.

Lemma all_url_chars_last (s : string) (c : ascii) :
  all_url_chars (s ++ String c "") = true -> url_char c = true.
Proof.
  induction s as [|a s IH]; simpl; intros H;
    apply andb_true_iff in H as [H1 H2]; auto.
Qed.

Lemma url_char_not_angle (c : ascii) :
  url_char c = true -> mem_char c "<>" = false.
Proof.
  unfold url_char.
  change (mem_char c "<>")
    with (Ascii.eqb "<" c || (Ascii.eqb ">" c || false)).
  rewrite (Ascii.eqb_sym "<" c), (Ascii.eqb_sym ">" c).
  destruct (is_space c), (Ascii.eqb c "<"), (Ascii.eqb c ">");
    simpl; congruence.
Qed.

Lemma rstrip_last (chars s : string) (c : ascii) :
  mem_char c chars = false ->
  rstrip chars (s ++ String c "") = s ++ String c "".
Proof.
  intros Hc. induction s as [|a s IH]; simpl.
  - now rewrite Hc.
  - rewrite IH. now destruct (s ++ String c "") eqn:E; [destruct s; discriminate|].
Qed.

Lemma strip_url_pattern (m : string) :
  url_pattern m -> strip "<>" m = m.
Proof.
  intros (scheme & run & Hscheme & -> & Hne & Hall).
  destruct (nonempty_last run Hne) as (run' & c & ->).
  pose proof (url_char_not_angle c (all_url_chars_last _ _ Hall)) as Hc.
  unfold strip.
  assert (Hl : lstrip "<>" (scheme ++ run' ++ String c "") =
               scheme ++ run' ++ String c "")
    by (destruct Hscheme as [-> | ->]; reflexivity).
  rewrite Hl, <- append_assoc. now apply rstrip_last.
Qed.



(** X17: stripping the angle brackets changes none of the URLs the scan
    returns: the pattern already excludes them, so the handler validates
    the strings exactly as they were found. *)
Theorem findall_urls_strip_noop :
  forall (text m : string),
    In m (findall_urls text) -> strip "<>" m = m.
Proof.
  intros text m Hin.
  apply strip_url_pattern.
  unfold findall_urls in Hin.
  now destruct (findall_from_sound text 0 m Hin).
Qed.

Lemma findall_urls_strip_noop_witness :
  strip "<>" "https://tiktok.com/@jane|Jane" = "https://tiktok.com/@jane|Jane".
Proof.
  apply (findall_urls_strip_noop "see <https://tiktok.com/@jane|Jane> please").
  simpl. auto.
Defined.

(** ** The mention handler: the loop over the URLs *)

Section MentionLoop.

Variable validate : string -> option string * string.
Variable is_duplicate : string -> M bool.
Variable append_row : string -> string -> option string -> M bool.

(** X18: the loop records exactly one line for each URL, either among the
    successes or among the errors, and keeps the lines recorded before:
    when it returns, the two lists have grown by the number of URLs. *)
Theorem process_urls_one_line_each :
  forall (urls : list string) (user : option string)
         (processed errors processed' errors' : list string) (w w' : World),
    process_urls validate is_duplicate append_row urls user processed errors w =
      (Ok (processed', errors'), w') ->
    length processed' + length errors' =
      length processed + length errors + length urls /\
    (exists added, processed' = (processed ++ added)%list) /\
    (exists added, errors' = (errors ++ added)%list).
Proof.
  induction urls as [|url0 urls IH];
    intros user processed errors processed' errors' w w' Hrun.
  - injection Hrun as <- <- _. simpl.
    split; [lia|]. split; exists []; now rewrite app_nil_r.
  - assert (Hstep : forall p e w0,
              process_urls validate is_duplicate append_row urls user p e w0 =
                (Ok (processed', errors'), w') ->
              length p + length e = S (length processed + length errors) ->
              (exists a, p = (processed ++ a)%list) ->
              (exists a, e = (errors ++ a)%list) ->
              length processed' + length errors' =
                length processed + length errors + length (url0 :: urls) /\
              (exists added, processed' = (processed ++ added)%list) /\
              (exists added, errors' = (errors ++ added)%list)).
    { intros p e w0 Hrec Hlen [a Ha] [b Hb].
      destruct (IH _ _ _ _ _ _ _ Hrec) as (Hn & [a' Ha'] & [b' Hb']).
      split; [simpl; lia|]. split.
      - exists (a ++ a')%list. now rewrite Ha', Ha, app_assoc.
      - exists (b ++ b')%list. now rewrite Hb', Hb, app_assoc. }
    assert (Herr : forall line w0,
              process_urls validate is_duplicate append_row urls user
                processed (errors ++ [line]) w0 = (Ok (processed', errors'), w') ->
              length processed' + length errors' =
                length processed + length errors + length (url0 :: urls) /\
              (exists added, processed' = (processed ++ added)%list) /\
              (exists added, errors' = (errors ++ added)%list)).
    { intros line w0 Hrec. apply (Hstep _ _ _ Hrec).
      - rewrite length_app. simpl. lia.
      - exists []. now rewrite app_nil_r.
      - now exists [line]. }
    simpl in Hrun. unfold bind at 1 in Hrun. unfold logger_info at 1 in Hrun.
    destruct (validate (strip "<>" url0)) as [[[|c v]|] result].
    + now apply Herr in Hrun.
    + unfold bind at 1 in Hrun.
      destruct (is_duplicate (String c v) _) as [[[|]|err] w1];
        [now apply Herr in Hrun | | discriminate].
      unfold bind at 1 in Hrun.
      destruct (append_row (String c v) result user w1) as [[[|]|err] w2];
        [ | now apply Herr in Hrun | discriminate].
      apply (Hstep _ _ _ Hrun).
      * rewrite length_app. simpl. lia.
      * eexists. reflexivity.
      * exists []. now rewrite app_nil_r.
    + now apply Herr in Hrun.
Qed.

(** X19: URLs that the Validator rejects reach neither the duplicate
    checker nor the appender: when every URL of the list is rejected, the
    loop, whatever the two other stages are, only logs each URL and records
    one error line for it, with the Validator's message. *)
Theorem process_urls_all_rejected :
  forall (urls : list string) (user : option string)
         (processed errors : list string) (w : World),
    (forall url, In url urls -> fst (validate (strip "<>" url)) = None) ->
    process_urls validate is_duplicate append_row urls user processed errors w =
      (Ok (processed,
           (errors ++
            map (fun url =>
                   "• " ++ strip "<>" url ++ ": " ++
                   snd (validate (strip "<>" url)))%string urls)%list),
       set_log
         (log w ++
          map (fun url => (INFO, "Processing URL: " ++ strip "<>" url)%string)
            urls)%list w).
Proof.
  induction urls as [|url0 urls IH]; intros user processed errors w Hrej.
  - simpl. rewrite !app_nil_r. unfold ret. f_equal. now destruct w.
  - simpl. unfold bind at 1. unfold logger_info at 1.
    pose proof (Hrej url0 (or_introl eq_refl)) as H0.
    destruct (validate (strip "<>" url0)) as [validated result].
    simpl in H0. subst validated.
    rewrite IH by (intros u Hu; apply Hrej; now right).
    cbn [log set_log sheet directory now faults said snd].
    rewrite <- !app_assoc. reflexivity.
Qed.

End MentionLoop.

Lemma process_urls_one_line_each_witness :
  exists processed errors,
    fst (process_urls (validate_url UrlParse.urlparse) check_duplicate_url
           add_to_sheet ["https://youtu.be/abc"; "https://example.com/x"]
           (Some "U1") [] [] queue_foo) = Ok (processed, errors) /\
    length processed + length errors = 2.
Proof.
  destruct (process_urls (validate_url UrlParse.urlparse) check_duplicate_url
           add_to_sheet ["https://youtu.be/abc"; "https://example.com/x"]
           (Some "U1") [] [] queue_foo) as [[[processed errors]|e] w'] eqn:Hrun.
  - exists processed, errors. split; [reflexivity|].
    now destruct (process_urls_one_line_each _ _ _ _ _ _ _ _ _ _ _ Hrun).
  - vm_compute in Hrun. discriminate Hrun.
Defined.

Lemma process_urls_all_rejected_witness :
  fst (process_urls (validate_url UrlParse.urlparse) check_duplicate_url
         add_to_sheet ["https://example.com/x"; "https://tiktok.com/"]
         (Some "U1") [] [] queue_foo) =
    Ok ([],
        ["• https://example.com/x: Unsupported platform. Please use Instagram, TikTok, or YouTube URLs.";
         "• https://tiktok.com/: Invalid TikTok URL. Please provide a profile/channel URL."]).
Proof.
  rewrite (process_urls_all_rejected (validate_url UrlParse.urlparse)
             check_duplicate_url add_to_sheet).
  - reflexivity.
  - intros url [<- | [<- | []]]; reflexivity.
Defined.

(** ** The mention handler: its effect on the queue and on the channel *)

Lemma say_effect (msg : string) (w : World) :
  exists r w',
    say msg w = (r, w') /\
    sheet w' = sheet w /\ faults w' = tl (faults w) /\
    (faults w = [] -> r = Ok tt) /\
    match r with
    | Ok _ => said w' = (said w ++ [msg])%list
    | Raise _ => said w' = said w
    end.
Proof.
  unfold say, remote.
  destruct (faults w) as [|[e|] rest] eqn:Ef; cbn; rewrite ?Ef;
    do 2 eexists; (split; [reflexivity|]); cbn; rewrite ?Ef;
    repeat split; intros; congruence.
Qed.

Section MentionEffect.

Variable urlparse : string -> exc ParseResult.

Lemma process_urls_effect (urls : list string) :
  forall (user : option string) (processed errors : list string) (w : World),
    exists processed' errors' w',
      process_urls (validate_url urlparse) check_duplicate_url add_to_sheet
        urls user processed errors w = (Ok (processed', errors'), w') /\
      said w' = said w /\
      (faults w = [] -> faults w' = []) /\
      exists rows,
        sheet w' = (sheet w ++ rows)%list /\
        length rows <= length urls /\
        Forall pending_row rows.
Proof.
  induction urls as [|url0 urls IH]; intros user processed errors w.
  - exists processed, errors, w. split; [reflexivity|].
    split; [reflexivity|]. split; [auto|].
    exists []. rewrite app_nil_r. auto.
  - assert (Hrec : forall p e w0,
              said w0 = said w -> (faults w = [] -> faults w0 = []) ->
              (exists rows0, sheet w0 = (sheet w ++ rows0)%list /\
                             length rows0 <= 1 /\ Forall pending_row rows0) ->
              exists processed' errors' w',
                process_urls (validate_url urlparse) check_duplicate_url
                  add_to_sheet urls user p e w0 = (Ok (processed', errors'), w') /\
                said w' = said w /\
                (faults w = [] -> faults w' = []) /\
                exists rows,
                  sheet w' = (sheet w ++ rows)%list /\
                  length rows <= length (url0 :: urls) /\
                  Forall pending_row rows).
    { intros p e w0 Hsaid Hf (rows0 & Hs0 & Hl0 & Hp0).
      destruct (IH user p e w0)
        as (p' & e' & w' & Hrun & Hsaid' & Hf' & rows & Hs & Hl & Hp).
      exists p', e', w'. split; [exact Hrun|].
      split; [congruence|]. split; [auto|].
      exists (rows0 ++ rows)%list. rewrite Hs, Hs0, app_assoc.
      split; [reflexivity|]. split.
      - rewrite length_app. simpl. lia.
      - now apply Forall_app. }
    simpl. unfold bind at 1. unfold logger_info at 1.
    set (w0 := set_log _ w).
    assert (Hw0 : said w0 = said w /\ faults w0 = faults w /\ sheet w0 = sheet w)
      by (repeat split).
    destruct Hw0 as (Hsaid0 & Hf0 & Hs0).
    assert (Hsame : exists rows0, sheet w0 = (sheet w ++ rows0)%list /\
                                  length rows0 <= 1 /\ Forall pending_row rows0).
    { exists []. rewrite app_nil_r. auto. }
    destruct (validate_url urlparse (strip "<>" url0)) as [[[|c v]|] result].
    + apply Hrec; auto.
    + unfold bind at 1.
      destruct (check_duplicate_url_frame (String c v) w0)
        as (b & w1 & Hcheck & Hs1 & Hsaid1 & _ & _ & Hf1).
      rewrite Hcheck.
      assert (Hf1' : faults w = [] -> faults w1 = [])
        by (intros H; rewrite Hf1, Hf0, H; reflexivity).
      destruct b.
      * apply Hrec; [congruence | exact Hf1' |].
        exists []. rewrite app_nil_r. split; [congruence | auto].
      * unfold bind at 1.
        destruct (add_to_sheet_calls (String c v) result user w1)
          as (b & w2 & Hadd & Hsaid2 & _ & _ & Hf2 & _ & Hkeep & Hrow).
        rewrite Hadd.
        assert (Hf2' : faults w = [] -> faults w2 = [])
          by (intros H; rewrite Hf2, (Hf1' H); reflexivity).
        destruct b.
        -- apply Hrec; [congruence | exact Hf2' |].
           destruct (Hrow eq_refl) as (user_name & _ & Hs2).
           eexists. split; [rewrite Hs2, Hs1, Hs0; reflexivity|].
           split; [simpl; lia|].
           constructor; [split; reflexivity | constructor].
        -- apply Hrec; [congruence | exact Hf2' |].
           exists []. rewrite app_nil_r.
           split; [rewrite (Hkeep eq_refl); congruence | auto].
    + apply Hrec; auto.
Qed.


(** X21: when no remote call fails, a mention is answered by exactly one
    message and the handler returns normally. *)
Theorem handle_mention_one_reply :
  forall (ev : event) (w : World),
    faults w = [] ->
    exists w' msg,
      handle_mention urlparse ev w = (Ok tt, w') /\
      said w' = (said w ++ [msg])%list /\
      faults w' = [].
Proof.
  intros ev w Hf.
  unfold handle_mention, handle_mention_with, handle_mention_try, try_except.
  unfold bind at 1. unfold logger_info at 1.
  set (w0 := set_log _ w).
  assert (Hf0 : faults w0 = []) by exact Hf.
  destruct (findall_urls (event_text ev)) as [|u urls]; cbn [is_nil].
  - destruct (say_effect (msg_usage (user_of ev)) w0)
      as (r & w1 & Hsay & _ & Hf1 & Hok & Hsaid1).
    rewrite Hsay, (Hok Hf0) in *. exists w1, (msg_usage (user_of ev)).
    split; [reflexivity|]. split; [exact Hsaid1|].
    rewrite Hf1, Hf0. reflexivity.
  - unfold bind at 1.
    destruct (process_urls_effect (u :: urls) (user_of ev) [] [] w0)
      as (p' & e' & w1 & Hrun & Hsaid1 & Hf1 & _).
    rewrite Hrun. unfold bind at 1.
    destruct (say_effect (compose_response (user_of ev) p' e') w1)
      as (r & w2 & Hsay & _ & Hf2 & Hok & Hsaid2).
    rewrite Hsay, (Hok (Hf1 Hf0)) in *. cbn [logger_info].
    eexists. exists (compose_response (user_of ev) p' e').
    split; [reflexivity|]. cbn. split.
    + rewrite Hsaid2, Hsaid1. reflexivity.
    + rewrite Hf2, (Hf1 Hf0). reflexivity.
Qed.

End MentionEffect.

Lemma handle_mention_one_reply_witness :
  exists w' msg,
    handle_mention UrlParse.urlparse
      (mkEvent (Some "<@B1> add <https://youtu.be/abc> and https://example.com/x")
         (Some "U1")) queue_foo = (Ok tt, w') /\
    said w' = [msg].
Proof.
  destruct (handle_mention_one_reply UrlParse.urlparse
              (mkEvent (Some "<@B1> add <https://youtu.be/abc> and https://example.com/x")
                 (Some "U1")) queue_foo eq_refl)
    as (w' & msg & Hrun & Hsaid & _).
  exists w', msg. split; [exact Hrun | exact Hsaid].
Defined.

(** ** The slash command handler *)

Section SlashFacts.

Variable validate : string -> option string * string.
Variable is_duplicate : string -> M bool.
Variable append_row : string -> string -> option string -> M bool.
Variable ack : M unit.
Variable respond : string -> M unit.

Let handler : string -> M unit :=
  fun e =>
    logger_error ("Error handling slash command: " ++ e) ;;
    respond msg_slash_apology.

(** X22: the acknowledgement comes first: when [ack] raises, the command
    is not read and no stage of the pipeline runs; the error is logged and
    the apology is the response. *)
Theorem handle_slash_command_ack_first :
  forall (cmd : command) (w w1 : World) (e : string),
    ack w = (Raise e, w1) ->
    handle_slash_command_with validate is_duplicate append_row ack respond
      cmd w =
    respond msg_slash_apology
      (set_log (log w1 ++ [(ERROR, "Error handling slash command: " ++ e)]) w1).
Proof.
  intros cmd w w1 e Hack.
  unfold handle_slash_command_with, handle_slash_command_try, try_except.
  unfold bind at 1. rewrite Hack. reflexivity.
Qed.



End SlashFacts.

Lemma handle_slash_command_ack_first_witness :
  handle_slash_command UrlParse.urlparse
    (mkCommand (Some "instagram.com/jane") (Some "U1"))
    (set_faults [Some "timeout"] queue_foo) =
  (Ok tt,
   set_said [msg_slash_apology]
     (set_log [(ERROR, "Error handling slash command: timeout")] queue_foo)).
Proof.
  unfold handle_slash_command.
  rewrite (handle_slash_command_ack_first _ _ _ slack_ack say _
             (set_faults [Some "timeout"] queue_foo) queue_foo "timeout" eq_refl).
  reflexivity.
Defined.



Section SlashEffect.

Variable urlparse : string -> exc ParseResult.

Lemma validate_url_success_nonempty (url out platform : string) :
  validate_url urlparse url = (Some out, platform) ->
  exists c rest, out = String c rest.
Proof.
  intros H. unfold validate_url in H.
  apply validate_parsed_success in H. subst out.
  apply has_scheme_nonempty, add_scheme_has_scheme.
Qed.

Lemma check_duplicate_url_no_fault (url : string) (w : World) :
  faults w = [] ->
  check_duplicate_url url w = (Ok (scan_rows (skip_header (sheet w)) url), w).
Proof.
  intros Hf.
  unfold check_duplicate_url, try_except, bind, values_get_all, remote.
  now rewrite Hf.
Qed.

Lemma add_to_sheet_no_fault (url platform : string) (user_id : option string)
    (w : World) :
  faults w = [] ->
  exists w' timestamp requester,
    add_to_sheet url platform user_id w = (Ok true, w') /\
    faults w' = [] /\ said w' = said w /\
    sheet w' =
      (sheet w ++ [[timestamp; url; platform; requester; "Pending"]])%list.
Proof.
  intros Hf.
  destruct (add_to_sheet_calls url platform user_id w)
    as (b & w' & Hrun & Hsaid & _ & _ & Hf' & Hiff & _ & Hrow).
  assert (Hb : b = true).
  { destruct b; [reflexivity|].
    destruct (proj1 Hiff eq_refl) as [e He]. rewrite Hf in He. discriminate. }
  subst b. destruct (Hrow eq_refl) as (user_name & _ & Hsheet).
  exists w', (strftime (now w)), (cell_text user_name).
  split; [exact Hrun|]. split; [rewrite Hf', Hf; reflexivity|].
  split; [exact Hsaid | exact Hsheet].
Qed.

(** One command with a URL the Validator accepts, when no remote call
    fails: the answer and the queue, by what the duplicate check finds. *)
Lemma handle_slash_command_run (cmd : command) (text user v platform : string)
    (w : World) :
  faults w = [] ->
  cmd_text cmd = Some text ->
  cmd_user_id cmd = Some user ->
  strip_space text <> "" ->
  validate_url urlparse (strip_space text) = (Some v, platform) ->
  exists w1,
    handle_slash_command urlparse cmd w = (Ok tt, w1) /\
    faults w1 = [] /\
    if scan_rows (skip_header (sheet w)) v
    then sheet w1 = sheet w /\
         said w1 =
           (said w ++
            [("❌ URL already exists in database: " ++ strip_space text)%string])%list
    else (exists timestamp requester,
             sheet w1 =
               (sheet w ++ [[timestamp; v; platform; requester; "Pending"]])%list) /\
         said w1 = (said w ++ [msg_slash_added platform v])%list.
Proof.
  intros Hf Ht Hu Hne Hv.
  destruct (validate_url_success_nonempty _ _ _ Hv) as (c & rest & ->).
  unfold handle_slash_command, handle_slash_command_with,
    handle_slash_command_try, try_except.
  unfold bind at 1. unfold slack_ack at 1, remote at 1. rewrite Hf.
  rewrite Ht, Hu. cbn -[strip_space validate_url check_duplicate_url
                         add_to_sheet say logger_info logger_error].
  unfold bind at 1. unfold logger_info at 1.
  set (w0 := set_log _ w).
  assert (Hf0 : faults w0 = []) by exact Hf.
  unfold slash_pipeline. rewrite Hv.
  destruct (strip_space text) as [|c0 rest0] eqn:Eurl; [congruence|].
  cbn [truthy negb].
  unfold bind at 1. rewrite (check_duplicate_url_no_fault _ w0 Hf0).
  change (sheet w0) with (sheet w).
  destruct (scan_rows (skip_header (sheet w)) (String c rest)).
  - destruct (say_effect
                ("❌ URL already exists in database: " ++ String c0 rest0) w0)
      as (r & w1 & Hsay & Hs1 & Hf1 & Hok & Hsaid1).
    rewrite Hsay, (Hok Hf0) in *.
    exists w1. split; [reflexivity|]. split; [rewrite Hf1, Hf0; reflexivity|].
    split; [exact Hs1 | exact Hsaid1].
  - unfold bind at 1.
    destruct (add_to_sheet_no_fault (String c rest) platform (Some user) w0 Hf0)
      as (w1 & ts & req & Hadd & Hf1 & Hsaid1 & Hs1).
    rewrite Hadd. unfold bind at 1.
    destruct (say_effect (msg_slash_added platform (String c rest)) w1)
      as (r & w2 & Hsay & Hs2 & Hf2 & Hok & Hsaid2).
    rewrite Hsay, (Hok Hf1) in *. cbn [logger_info].
    eexists. split; [reflexivity|]. cbn.
    split; [rewrite Hf2, Hf1; reflexivity|].
    split.
    + exists ts, req. rewrite Hs2. exact Hs1.
    + rewrite Hsaid2, Hsaid1. reflexivity.
Qed.

(** X25: the same command twice in a row, on a queue that has a row and
    does not hold the URL yet, when no remote call fails: the first command
    appends one row and answers that the URL was added, the second finds it
    and answers that it already exists, and the queue holds that one new
    row. *)
Theorem handle_slash_command_twice :
  forall (cmd : command) (text user v platform : string) (w : World),
    faults w = [] ->
    sheet w <> [] ->
    cmd_text cmd = Some text ->
    cmd_user_id cmd = Some user ->
    strip_space text <> "" ->
    validate_url urlparse (strip_space text) = (Some v, platform) ->
    scan_rows (skip_header (sheet w)) v = false ->
    exists w1 w2 timestamp requester,
      handle_slash_command urlparse cmd w = (Ok tt, w1) /\
      handle_slash_command urlparse cmd w1 = (Ok tt, w2) /\
      sheet w2 =
        (sheet w ++ [[timestamp; v; platform; requester; "Pending"]])%list /\
      said w2 =
        (said w ++
         [msg_slash_added platform v;
          ("❌ URL already exists in database: " ++ strip_space text)%string])%list.
Proof.
  intros cmd text user v platform w Hf Hne Ht Hu Hurl Hv Hnew.
  destruct (handle_slash_command_run cmd text user v platform w Hf Ht Hu Hurl Hv)
    as (w1 & Hrun1 & Hf1 & H1).
  rewrite Hnew in H1. destruct H1 as [(ts & req & Hs1) Hsaid1].
  destruct (handle_slash_command_run cmd text user v platform w1 Hf1 Ht Hu Hurl Hv)
    as (w2 & Hrun2 & _ & H2).
  rewrite Hs1, (scan_rows_appended (sheet w) ts v platform req Hne) in H2.
  destruct H2 as [Hs2 Hsaid2].
  exists w1, w2, ts, req.
  split; [exact Hrun1|]. split; [exact Hrun2|].
  split; [exact Hs2|].
  rewrite Hsaid2, Hsaid1, <- app_assoc. reflexivity.
Qed.

(** X26: on a queue without any row the same two commands both append:
    the first row becomes row 0, which the duplicate check skips, so the
    URL is queued twice. *)
Theorem handle_slash_command_twice_empty_queue :
  forall (cmd : command) (text user v platform : string) (w : World),
    faults w = [] ->
    sheet w = [] ->
    cmd_text cmd = Some text ->
    cmd_user_id cmd = Some user ->
    strip_space text <> "" ->
    validate_url urlparse (strip_space text) = (Some v, platform) ->
    exists w1 w2 t1 r1 t2 r2,
      handle_slash_command urlparse cmd w = (Ok tt, w1) /\
      handle_slash_command urlparse cmd w1 = (Ok tt, w2) /\
      sheet w2 =
        [[t1; v; platform; r1; "Pending"]; [t2; v; platform; r2; "Pending"]] /\
      said w2 =
        (said w ++
         [msg_slash_added platform v; msg_slash_added platform v])%list.
Proof.
  intros cmd text user v platform w Hf Hnil Ht Hu Hurl Hv.
  destruct (handle_slash_command_run cmd text user v platform w Hf Ht Hu Hurl Hv)
    as (w1 & Hrun1 & Hf1 & H1).
  rewrite Hnil in H1. cbn in H1. destruct H1 as [(t1 & r1 & Hs1) Hsaid1].
  destruct (handle_slash_command_run cmd text user v platform w1 Hf1 Ht Hu Hurl Hv)
    as (w2 & Hrun2 & _ & H2).
  rewrite Hs1 in H2. cbn in H2. destruct H2 as [(t2 & r2 & Hs2) Hsaid2].
  exists w1, w2, t1, r1, t2, r2.
  split; [exact Hrun1|]. split; [exact Hrun2|].
  split; [exact Hs2|].
  rewrite Hsaid2, Hsaid1, <- app_assoc. reflexivity.
Qed.

End SlashEffect.

Lemma handle_slash_command_twice_witness :
  exists w1 w2 timestamp requester,
    handle_slash_command UrlParse.urlparse
      (mkCommand (Some " instagram.com/jane ") (Some "U1")) queue_foo = (Ok tt, w1) /\
    handle_slash_command UrlParse.urlparse
      (mkCommand (Some " instagram.com/jane ") (Some "U1")) w1 = (Ok tt, w2) /\
    sheet w2 =
      (sheet queue_foo ++
       [[timestamp; "https://instagram.com/jane"; "Instagram"; requester;
         "Pending"]])%list /\
    said w2 =
      [msg_slash_added "Instagram" "https://instagram.com/jane";
       "❌ URL already exists in database: instagram.com/jane"].
Proof.
  exact (handle_slash_command_twice UrlParse.urlparse
           (mkCommand (Some " instagram.com/jane ") (Some "U1"))
           " instagram.com/jane " "U1" "https://instagram.com/jane" "Instagram"
           queue_foo eq_refl ltac:(discriminate) eq_refl eq_refl
           ltac:(discriminate) eq_refl eq_refl).
Defined.

Lemma handle_slash_command_twice_empty_queue_witness :
  exists w1 w2 t1 r1 t2 r2,
    handle_slash_command UrlParse.urlparse
      (mkCommand (Some "instagram.com/jane") (Some "U1")) world0 = (Ok tt, w1) /\
    handle_slash_command UrlParse.urlparse
      (mkCommand (Some "instagram.com/jane") (Some "U1")) w1 = (Ok tt, w2) /\
    sheet w2 =
      [[t1; "https://instagram.com/jane"; "Instagram"; r1; "Pending"];
       [t2; "https://instagram.com/jane"; "Instagram"; r2; "Pending"]] /\
    said w2 =
      [msg_slash_added "Instagram" "https://instagram.com/jane";
       msg_slash_added "Instagram" "https://instagram.com/jane"].
Proof.
  exact (handle_slash_command_twice_empty_queue UrlParse.urlparse
           (mkCommand (Some "instagram.com/jane") (Some "U1"))
           "instagram.com/jane" "U1" "https://instagram.com/jane" "Instagram"
           world0 eq_refl eq_refl eq_refl eq_refl ltac:(discriminate) eq_refl).
Defined.

(** ** The scan: matches do not overlap *)

Lemma length_append (a b : string) :
  String.length (a ++ b) = String.length a + String.length b.
Proof.
  induction a as [|x a IH]; simpl; [reflexivity | now rewrite IH].
Qed.

Lemma findall_from_total (s : string) :
  forall skip,
    skip <= String.length s ->
    total_length (findall_from skip s) + skip <= String.length s.
Proof.
  induction s as [|c s IH]; intros skip Hskip; simpl in *.
  - lia.
  - destruct skip as [|k].
    + destruct (match_here (String c s)) as [m|] eqn:Em.
      * destruct (match_here_sound _ _ Em) as [Hm [post E]].
        assert (Hlen : String.length m <= S (String.length s)).
        { change (S (String.length s)) with (String.length (String c s)).
          rewrite E, length_append. lia. }
        destruct Hm as (scheme & run & Hscheme & -> & _).
        assert (Hpos : 1 <= String.length (scheme ++ run))
          by (destruct Hscheme as [-> | ->]; simpl; lia).
        simpl. specialize (IH (String.length (scheme ++ run) - 1)). lia.
      * specialize (IH 0). lia.
    + specialize (IH k). lia.
Qed.

(** X27: the URLs found in a text are cut from disjoint parts of it: their
    lengths add up to at most the length of the text. *)
Theorem findall_urls_disjoint :
  forall (text : string),
    total_length (findall_urls text) <= String.length text /\
    length (findall_urls text) <= String.length text.
Proof.
  intros text.
  pose proof (findall_from_total text 0 (Nat.le_0_l _)) as Htotal.
  unfold findall_urls. split; [lia|].
  assert (Hcount : forall s k,
            length (findall_from k s) <= total_length (findall_from k s)).
  { induction s as [|c s IH]; intros k; simpl; [lia|].
    destruct k as [|k]; [|apply IH].
    destruct (match_here (String c s)) as [m|] eqn:Em; [|apply IH].
    destruct (match_here_sound _ _ Em) as [(scheme & run & Hscheme & -> & _) _].
    assert (Hpos : 1 <= String.length (scheme ++ run))
      by (destruct Hscheme as [-> | ->]; simpl; lia).
    simpl. specialize (IH (String.length (scheme ++ run) - 1)). lia. }
  specialize (Hcount text 0). lia.
Qed.

(** ** The check of the environment *)

(** X28: start-up goes on exactly when the three tokens are set to
    non-empty strings and the credentials file exists; a variable set to
    the empty string counts as missing, and whenever the check does not
    pass the process exits with status 1. *)
Theorem check_environment_passes_iff :
  forall (path_exists : string -> bool) (env : environ),
    (snd (check_environment path_exists env) = None <->
     truthy (env_SLACK_BOT_TOKEN env) = true /\
     truthy (env_SLACK_APP_TOKEN env) = true /\
     truthy (env_SPREADSHEET_ID env) = true /\
     path_exists (GOOGLE_CREDENTIALS_FILE env) = true) /\
    (snd (check_environment path_exists env) = None \/
     snd (check_environment path_exists env) = Some 1) /\
    (missing_vars path_exists env = [] <->
     snd (check_environment path_exists env) = None).
Proof.
  intros path_exists env.
  unfold check_environment, missing_vars.
  destruct (truthy (env_SLACK_BOT_TOKEN env)),
           (truthy (env_SLACK_APP_TOKEN env)),
           (truthy (env_SPREADSHEET_ID env)),
           (path_exists (GOOGLE_CREDENTIALS_FILE env));
    cbn -[GOOGLE_CREDENTIALS_FILE String.append join];
    (split; [|split]); try tauto;
    split; intros H; try discriminate H; try tauto;
    decompose [and] H; discriminate.
Qed.

Lemma check_environment_passes_iff_witness :
  snd (check_environment (fun _ => true)
         (mkEnviron (Some "") (Some "xapp-1") None (Some "sheet-id") None)) =
    Some 1 /\
  missing_vars (fun _ => true)
    (mkEnviron (Some "") (Some "xapp-1") None (Some "sheet-id") None) =
    ["SLACK_BOT_TOKEN"].
Proof.
  destruct (check_environment_passes_iff (fun _ => true)
              (mkEnviron (Some "") (Some "xapp-1") None (Some "sheet-id") None))
    as (_ & [Hnone | Hexit] & _).
  - discriminate Hnone.
  - split; [exact Hexit | reflexivity].
Defined.
